(** * Electron patches: media stream device controller, Node.js embedder
      preload, WebAssembly trap-handler flag, accessibility page.

    A shallow embedding of
    - [shell/browser/media/media_stream_devices_controller.cc],
    - the Node.js patch "src: preload function for Environment",
    - the Node.js patch "optionally prevent calling
      V8::EnableWebAssemblyTrapHandler",
    - the Chromium patch "patch out Profile refs in accessibility_ui",
    with the properties the specification states about them. *)

From Stdlib Require Import ZArith Bool.
From stdpp Require Import gmap strings list fin_maps.

Local Open Scope string_scope.
Local Open Scope list_scope.

(* ===================================================================== *)
(** * Effects: state passing with fatal assertions                        *)
(* ===================================================================== *)

Module Effects.

(** A computation over a state [S] either returns a value and a new state,
    or dies on a fatal assertion ([CHECK], [NOTREACHED], a failed [assert])
    leaving the state as it stood. *)
Inductive Outcome (S A : Type) :=
| Returned (a : A) (s : S)
| Fatal (s : S).
Arguments Returned {S A} a s.
Arguments Fatal {S A} s.

Definition M (S A : Type) := S -> Outcome S A.

Definition ret {S A} (a : A) : M S A := fun s => Returned a s.

Definition bind {S A B} (m : M S A) (k : A -> M S B) : M S B :=
  fun s => match m s with
           | Returned a s' => k a s'
           | Fatal s' => Fatal s'
           end.

#[global] Instance M_ret {S} : MRet (M S) := @ret S.
#[global] Instance M_bind {S} : MBind (M S) := fun A B k m => bind m k.

Definition gets {S A} (f : S -> A) : M S A := fun s => Returned (f s) s.
Definition modify {S} (f : S -> S) : M S unit := fun s => Returned tt (f s).
Definition fatal {S A} : M S A := fun s => Fatal s.

(** The state an outcome ends in. *)
Definition final_state {S A} (o : Outcome S A) : S :=
  match o with Returned _ s => s | Fatal s => s end.

End Effects.

Export Effects.

(* ===================================================================== *)
(** * The media stream device request broker                              *)
(* ===================================================================== *)

Module Media.

(** ** blink / content data types used by the controller *)

(** [blink::mojom::MediaStreamType]. *)
Inductive MediaStreamType :=
| NO_SERVICE
| DEVICE_AUDIO_CAPTURE
| DEVICE_VIDEO_CAPTURE
| GUM_TAB_AUDIO_CAPTURE
| GUM_TAB_VIDEO_CAPTURE
| GUM_DESKTOP_VIDEO_CAPTURE
| GUM_DESKTOP_AUDIO_CAPTURE
| DISPLAY_VIDEO_CAPTURE
| DISPLAY_AUDIO_CAPTURE
| DISPLAY_VIDEO_CAPTURE_THIS_TAB
| DISPLAY_VIDEO_CAPTURE_SET.

(** [blink::mojom::MediaStreamRequestResult]; the controller produces only
    [OK], [NO_HARDWARE] and [FAILED_DUE_TO_SHUTDOWN]. *)
Inductive MediaStreamRequestResult :=
| OK
| PERMISSION_DENIED
| PERMISSION_DISMISSED
| INVALID_STATE
| NO_HARDWARE
| INVALID_SECURITY_ORIGIN
| TAB_CAPTURE_FAILURE
| SCREEN_CAPTURE_FAILURE
| CAPTURE_FAILURE
| CONSTRAINT_NOT_SATISFIED
| NOT_SUPPORTED
| FAILED_DUE_TO_SHUTDOWN
| KILL_SWITCH_ON
| SYSTEM_PERMISSION_DENIED.

(** [blink::MediaStreamRequestType]. *)
Inductive MediaStreamRequestType :=
| MEDIA_DEVICE_ACCESS
| MEDIA_DEVICE_UPDATE
| MEDIA_GENERATE_STREAM
| MEDIA_OPEN_DEVICE_PEPPER_ONLY.

#[global] Instance MediaStreamType_eq_dec : EqDecision MediaStreamType.
Proof. solve_decision. Defined.
#[global] Instance MediaStreamRequestResult_eq_dec :
  EqDecision MediaStreamRequestResult.
Proof. solve_decision. Defined.
#[global] Instance MediaStreamRequestType_eq_dec :
  EqDecision MediaStreamRequestType.
Proof. solve_decision. Defined.

(** [blink::MediaStreamDevice], as built by [emplace_back(type, id, name)]. *)
Record MediaStreamDevice := mkDevice {
  type : MediaStreamType;
  id : string;
  name : string
}.

Definition MediaStreamDevices := list MediaStreamDevice.

(** [content::MediaStreamRequest], the fields the controller reads. *)
Record MediaStreamRequest := mkRequest {
  render_process_id : Z;
  render_frame_id : Z;
  request_type : MediaStreamRequestType;
  requested_audio_device_id : string;
  requested_video_device_id : string;
  audio_type : MediaStreamType;
  video_type : MediaStreamType
}.

(** [content::DesktopMediaID]: the capture target of a desktop stream. *)
Inductive DesktopMediaIDType := TYPE_NONE | TYPE_SCREEN | TYPE_WINDOW | TYPE_WEB_CONTENTS.

Record DesktopMediaID := mkDesktopMediaID {
  target_type : DesktopMediaIDType;
  target_id : Z
}.

(** [std::string::empty]. *)
Definition empty (s : string) : bool :=
  match s with EmptyString => true | String _ _ => false end.

(** ** The completion callback

    [content::MediaResponseCallback] is a [base::OnceCallback]: a nullable,
    move-only handle.  A bound callback is identified by a number; [None] is
    the null callback.  What happens to callbacks is recorded in a trace,
    oldest event first. *)

Definition MediaResponseCallback := option nat.

Definition is_null (cb : MediaResponseCallback) : bool :=
  match cb with None => true | Some _ => false end.

Inductive CallbackEvent :=
| Ran (cb : nat) (devices : MediaStreamDevices) (result : MediaStreamRequestResult)
| MovedToSession (cb : nat) (request : MediaStreamRequest).

Definition event_callback (e : CallbackEvent) : nat :=
  match e with Ran cb _ _ => cb | MovedToSession cb _ => cb end.

Definition Trace := list CallbackEvent.

(** The controller runs on the browser UI thread; its effects are the
    events it appends to the trace, and a fatal assertion ends the process
    with the trace as it stands. *)
Abbreviation M := (Effects.M Trace).

(** [std::move(cb).Run(devices, result, nullptr)]: running a null callback
    is a fatal error; running a bound one records the invocation. *)
Definition Run (cb : MediaResponseCallback) (devices : MediaStreamDevices)
    (result : MediaStreamRequestResult) : M unit :=
  fun t => match cb with
           | Some c => Returned tt (t ++ [Ran c devices result])
           | None => Fatal t
           end.

(** Modelled from the spec: the [NOTREACHED()] macro is declared outside
    these sources; the specification treats the update-type branch as an
    unreachable program state guarded by a fatal assertion. *)
Definition NOTREACHED {A} : M A := fatal.

(** ** The host the controller talks to *)

Definition RenderFrameHost := nat.
Definition BrowserContext := nat.

(** Modelled from the spec: [api::Session] is not among the sources.  It is
    the per-browser-context permission/device-chooser collaborator; all the
    controller sees of it is whether it accepts responsibility for a
    request. *)
Record Session := mkSession {
  accepts_responsibility : MediaStreamRequest -> bool
}.

Record Host := mkHost {
  (** [MediaCaptureDevicesDispatcher::GetAudioCaptureDevices] *)
  GetAudioCaptureDevices : MediaStreamDevices;
  (** [MediaCaptureDevicesDispatcher::GetVideoCaptureDevices] *)
  GetVideoCaptureDevices : MediaStreamDevices;
  (** [MediaCaptureDevicesDispatcher::GetDefaultDevices(audio, video, &devices)],
      returning the vector after the call *)
  GetDefaultDevices : bool -> bool -> MediaStreamDevices -> MediaStreamDevices;
  (** [content::RenderFrameHost::FromID]; [None] is [nullptr] *)
  FromID : Z -> Z -> option RenderFrameHost;
  GetBrowserContext : RenderFrameHost -> BrowserContext;
  FromBrowserContext : BrowserContext -> Session;
  (** [content::DesktopMediaID::Parse] and [DesktopMediaID::ToString] *)
  Parse : string -> DesktopMediaID;
  ToString : DesktopMediaID -> string
}.

(** Modelled from the spec: [MediaCaptureDevicesDispatcher] is not among the
    sources.  A specifically requested device is the known device of that
    kind carrying the requested id, if any. *)
Definition FindDeviceWithId (devices : MediaStreamDevices) (device_id : string)
  : option MediaStreamDevice :=
  find (fun d => bool_decide (id d = device_id)) devices.

Definition GetRequestedAudioDevice (h : Host) (device_id : string) :=
  FindDeviceWithId (GetAudioCaptureDevices h) device_id.

Definition GetRequestedVideoDevice (h : Host) (device_id : string) :=
  FindDeviceWithId (GetVideoCaptureDevices h) device_id.

(** Modelled from the spec: the "first available" device of a kind is the
    head of the host's list for that kind, if the list is not empty. *)
Definition GetFirstAvailableAudioDevice (h : Host) : option MediaStreamDevice :=
  head (GetAudioCaptureDevices h).

Definition GetFirstAvailableVideoDevice (h : Host) : option MediaStreamDevice :=
  head (GetVideoCaptureDevices h).

(** Modelled from the spec: [Session::ChooseMediaDevice(request,
    std::move(callback_))].  When the session accepts responsibility for
    resolving the callback, ownership of the callback moves to it and the
    call returns [true]; otherwise the callback stays where it was and the
    call returns [false].  The result pairs the returned flag with what is
    left in the caller's callback. *)
Definition ChooseMediaDevice (s : Session) (request : MediaStreamRequest)
    (callback : MediaResponseCallback) : M (bool * MediaResponseCallback) :=
  fun t =>
    if accepts_responsibility s request then
      match callback with
      | Some c => Returned (true, None) (t ++ [MovedToSession c request])
      | None => Returned (true, None) t
      end
    else Returned (false, callback) t.

(** ** The controller *)

Record MediaStreamDevicesController := mkController {
  request_ : MediaStreamRequest;
  callback_ : MediaResponseCallback;
  microphone_requested_ : bool;
  webcam_requested_ : bool
}.

(** The state of the controller after [std::move(callback_)] gave the
    callback away. *)
Definition moved_from (c : MediaStreamDevicesController) :=
  {| request_ := request_ c;
     callback_ := None;
     microphone_requested_ := microphone_requested_ c;
     webcam_requested_ := webcam_requested_ c |}.

Definition with_callback (c : MediaStreamDevicesController)
    (cb : MediaResponseCallback) :=
  {| request_ := request_ c;
     callback_ := cb;
     microphone_requested_ := microphone_requested_ c;
     webcam_requested_ := webcam_requested_ c |}.

(** [HasAnyAvailableDevice] *)
Definition HasAnyAvailableDevice (h : Host) : bool :=
  negb (bool_decide (GetAudioCaptureDevices h = [])
        && bool_decide (GetVideoCaptureDevices h = [])).

(** The constructor. *)
Definition Create (request : MediaStreamRequest)
    (callback : MediaResponseCallback) : MediaStreamDevicesController :=
  {| request_ := request;
     callback_ := callback;
     microphone_requested_ :=
       bool_decide (audio_type request = DEVICE_AUDIO_CAPTURE)
       || bool_decide (request_type request = MEDIA_OPEN_DEVICE_PEPPER_ONLY);
     webcam_requested_ :=
       bool_decide (video_type request = DEVICE_VIDEO_CAPTURE)
       || bool_decide (request_type request = MEDIA_OPEN_DEVICE_PEPPER_ONLY) |}.

(** The destructor. *)
Definition Destroy (c : MediaStreamDevicesController) : M unit :=
  if negb (is_null (callback_ c))
  then Run (callback_ c) [] FAILED_DUE_TO_SHUTDOWN
  else mret tt.

(** [vector::push_back] of an optional device ([if (device) push_back]). *)
Definition push_back_if (devices : MediaStreamDevices)
    (device : option MediaStreamDevice) : MediaStreamDevices :=
  match device with Some d => devices ++ [d] | None => devices end.

(** The [MEDIA_OPEN_DEVICE_PEPPER_ONLY] case of [Accept]: the local
    [device] after the two branches. *)
Definition pepper_device (h : Host) (request : MediaStreamRequest)
  : option MediaStreamDevice :=
  if bool_decide (audio_type request = DEVICE_AUDIO_CAPTURE) then
    match GetRequestedAudioDevice h (requested_audio_device_id request) with
    | Some d => Some d
    | None => GetFirstAvailableAudioDevice h
    end
  else if bool_decide (video_type request = DEVICE_VIDEO_CAPTURE) then
    match GetRequestedVideoDevice h (requested_video_device_id request) with
    | Some d => Some d
    | None => GetFirstAvailableVideoDevice h
    end
  else None.

(** The [MEDIA_GENERATE_STREAM] case of [Accept]. *)
Definition generate_stream_devices (h : Host) (c : MediaStreamDevicesController)
  : MediaStreamDevices :=
  let request := request_ c in
  let devices : MediaStreamDevices := [] in
  let needs_audio_device := microphone_requested_ c in
  let needs_video_device := webcam_requested_ c in
  let '(devices, needs_audio_device) :=
    if negb (empty (requested_audio_device_id request)) then
      match GetRequestedAudioDevice h (requested_audio_device_id request) with
      | Some audio_device => (devices ++ [audio_device], false)
      | None => (devices, needs_audio_device)
      end
    else (devices, needs_audio_device) in
  let '(devices, needs_video_device) :=
    if negb (empty (requested_video_device_id request)) then
      match GetRequestedVideoDevice h (requested_video_device_id request) with
      | Some video_device => (devices ++ [video_device], false)
      | None => (devices, needs_video_device)
      end
    else (devices, needs_video_device) in
  if needs_audio_device || needs_video_device
  then GetDefaultDevices h needs_audio_device needs_video_device devices
  else devices.

(** The first half of [Accept]: the local [devices] when the final
    [callback_.Run] is reached. *)
Definition default_devices (h : Host) (c : MediaStreamDevicesController)
  : M MediaStreamDevices :=
  if microphone_requested_ c || webcam_requested_ c then
    match request_type (request_ c) with
    | MEDIA_OPEN_DEVICE_PEPPER_ONLY =>
        mret (push_back_if [] (pepper_device h (request_ c)))
    | MEDIA_GENERATE_STREAM => mret (generate_stream_devices h c)
    | MEDIA_DEVICE_ACCESS =>
        mret (GetDefaultDevices h (microphone_requested_ c)
               (webcam_requested_ c) [])
    | MEDIA_DEVICE_UPDATE => NOTREACHED
    end
  else mret [].

(** [Accept] *)
Definition Accept (h : Host) (c : MediaStreamDevicesController)
  : M MediaStreamDevicesController :=
  devices ← default_devices h c;
  Run (callback_ c) devices OK;;
  mret (moved_from c).

(** [Deny] *)
Definition Deny (c : MediaStreamDevicesController)
    (result : MediaStreamRequestResult) : M MediaStreamDevicesController :=
  Run (callback_ c) [] result;;
  mret (moved_from c).

(** The capture target chosen for a desktop-video request: the local
    [screen_id] of [HandleUserMediaRequest]. *)
Definition screen_id (h : Host) (request : MediaStreamRequest) : DesktopMediaID :=
  if empty (requested_video_device_id request)
  then mkDesktopMediaID TYPE_SCREEN (-1) (* kFullDesktopScreenId *)
  else Parse h (requested_video_device_id request).

(** The device list synthesized by [HandleUserMediaRequest]. *)
Definition synthesized_devices (h : Host) (request : MediaStreamRequest)
  : MediaStreamDevices :=
  let devices : MediaStreamDevices := [] in
  let devices :=
    if bool_decide (audio_type request = GUM_TAB_AUDIO_CAPTURE)
    then devices ++ [mkDevice GUM_TAB_AUDIO_CAPTURE "" ""] else devices in
  let devices :=
    if bool_decide (video_type request = GUM_TAB_VIDEO_CAPTURE)
    then devices ++ [mkDevice GUM_TAB_VIDEO_CAPTURE "" ""] else devices in
  let devices :=
    if bool_decide (audio_type request = GUM_DESKTOP_AUDIO_CAPTURE)
    then devices ++ [mkDevice GUM_DESKTOP_AUDIO_CAPTURE "loopback" "System Audio"]
    else devices in
  let devices :=
    if bool_decide (video_type request = GUM_DESKTOP_VIDEO_CAPTURE)
    then devices ++ [mkDevice GUM_DESKTOP_VIDEO_CAPTURE
                       (ToString h (screen_id h request)) "Screen"]
    else devices in
  devices.

(** [HandleUserMediaRequest] *)
Definition HandleUserMediaRequest (h : Host) (c : MediaStreamDevicesController)
  : M MediaStreamDevicesController :=
  let devices := synthesized_devices h (request_ c) in
  Run (callback_ c) devices
      (if bool_decide (devices = []) then NO_HARDWARE else OK);;
  mret (moved_from c).

(** The routing test at the head of [TakeAction]. *)
Definition is_tab_or_desktop_capture (request : MediaStreamRequest) : bool :=
  bool_decide (audio_type request = GUM_TAB_AUDIO_CAPTURE)
  || bool_decide (video_type request = GUM_TAB_VIDEO_CAPTURE)
  || bool_decide (audio_type request = GUM_DESKTOP_AUDIO_CAPTURE)
  || bool_decide (video_type request = GUM_DESKTOP_VIDEO_CAPTURE).

(** [TakeAction] *)
Definition TakeAction (h : Host) (c : MediaStreamDevicesController)
  : M MediaStreamDevicesController :=
  if is_tab_or_desktop_capture (request_ c) then HandleUserMediaRequest h c
  else
    match FromID h (render_process_id (request_ c))
                   (render_frame_id (request_ c)) with
    | None => mret c
    | Some rfh =>
        let browser_context := GetBrowserContext h rfh in
        let session := FromBrowserContext h browser_context in
        '(delegated, remaining) ←
          ChooseMediaDevice session (request_ c) (callback_ c);
        let c := with_callback c remaining in
        if delegated : bool then mret c
        else if HasAnyAvailableDevice h then Accept h c
        else Deny c NO_HARDWARE
    end.

(** Whether [TakeAction] reaches the session and the session takes the
    request over: the conditions under which the first three [return]s of
    [TakeAction] are passed and the third is taken. *)
Definition delegated (h : Host) (request : MediaStreamRequest) : bool :=
  negb (is_tab_or_desktop_capture request)
  && match FromID h (render_process_id request) (render_frame_id request) with
     | Some rfh =>
         accepts_responsibility
           (FromBrowserContext h (GetBrowserContext h rfh)) request
     | None => false
     end.


(** The life of one controller: constructed for a request, asked to take
    action, destroyed. *)
Definition lifetime (h : Host) (request : MediaStreamRequest)
    (callback : MediaResponseCallback) : M unit :=
  c ← TakeAction h (Create request callback);
  Destroy c.

End Media.

(** ** Concrete hosts used to run the controller *)

Module MediaExamples.
Import Media.

Definition microphone := mkDevice DEVICE_AUDIO_CAPTURE "mic-0" "Built-in Microphone".
Definition headset := mkDevice DEVICE_AUDIO_CAPTURE "mic-1" "Headset".
Definition webcam := mkDevice DEVICE_VIDEO_CAPTURE "cam-0" "FaceTime Camera".

(** Default devices as "first available of each requested kind". *)
Definition first_available_defaults (audio_devices video_devices : MediaStreamDevices)
    (audio video : bool) (devices : MediaStreamDevices) : MediaStreamDevices :=
  let devices := if audio then push_back_if devices (head audio_devices) else devices in
  if video then push_back_if devices (head video_devices) else devices.

(** A toy screen-id syntax: the string's length is the screen number. *)
Definition example_Parse (s : string) : DesktopMediaID :=
  mkDesktopMediaID TYPE_SCREEN (Z.of_nat (String.length s)).

Definition example_ToString (d : DesktopMediaID) : string :=
  match target_type d, target_id d with
  | TYPE_SCREEN, (-1)%Z => "screen:-1"
  | TYPE_SCREEN, _ => "screen:n"
  | TYPE_WINDOW, _ => "window"
  | _, _ => ""
  end.

(** A host with the given devices, where frame (1, 1) is the only live
    frame and the session accepts responsibility or not as told. *)
Definition example_host (audio_devices video_devices : MediaStreamDevices)
    (session_accepts : bool) : Host :=
  {| GetAudioCaptureDevices := audio_devices;
     GetVideoCaptureDevices := video_devices;
     GetDefaultDevices := first_available_defaults audio_devices video_devices;
     FromID := fun p f => if bool_decide (p = 1%Z ∧ f = 1%Z) then Some 7 else None;
     GetBrowserContext := fun _ => 0;
     FromBrowserContext := fun _ => mkSession (fun _ => session_accepts);
     Parse := example_Parse;
     ToString := example_ToString |}.

Definition request_for (kind : MediaStreamRequestType)
    (audio video : MediaStreamType) (audio_id video_id : string) (frame : Z)
  : MediaStreamRequest :=
  {| render_process_id := 1;
     render_frame_id := frame;
     request_type := kind;
     requested_audio_device_id := audio_id;
     requested_video_device_id := video_id;
     audio_type := audio;
     video_type := video |}.

End MediaExamples.

(* ===================================================================== *)
(** * The embedder preload hook of the JavaScript environment             *)
(* ===================================================================== *)

Module Node.

(** JavaScript values, as far as the patch looks at them. *)
Inductive Value :=
| Undefined
| Boolean (b : bool)
| Str (s : string)
| Object (name : string)
| Function (name : string).

#[global] Instance Value_eq_dec : EqDecision Value.
Proof. solve_decision. Defined.

(** [v8::Value::IsObject]: functions are objects too. *)
Definition IsObject (v : Value) : bool :=
  match v with Object _ | Function _ => true | _ => false end.

Definition IsFunction (v : Value) : bool :=
  match v with Function _ => true | _ => false end.

(** The [process] object and the internal [require] of an environment. *)
Definition process : Value := Object "process".
Definition require : Value := Function "require".

(** [EmbedderPreloadCallback]: a [std::function], empty ([None]) or holding
    the embedder's function.  The function is known by a name and by what
    it does to the properties of [process]. *)
Record PreloadFunction := mkPreload {
  preload_name : nat;
  preload_body : gmap string Value -> gmap string Value
}.

Definition EmbedderPreloadCallback := option PreloadFunction.

(** What happened in an environment, oldest first. *)
Inductive Step :=
| LibuvInitialized
| DiagnosticsInitialized
| EmbedderPreloadCalled (fn : nat) (process_obj require_fn : Value)
| PreloadModulesLoaded
| UserCodeStarted.

(** [class Environment], with the JavaScript state bootstrap looks at. *)
Record Environment := mkEnvironment {
  embedder_preload_ : EmbedderPreloadCallback;
  process_properties : gmap string Value;
  hasStartedUserCJSExecution : bool;
  hasStartedUserESMExecution : bool;
  steps : list Step
}.

Abbreviation JS := (Effects.M Environment).

Definition log (s : Step) : JS unit :=
  modify (fun env =>
    {| embedder_preload_ := embedder_preload_ env;
       process_properties := process_properties env;
       hasStartedUserCJSExecution := hasStartedUserCJSExecution env;
       hasStartedUserESMExecution := hasStartedUserESMExecution env;
       steps := steps env ++ [s] |}).

(** [Environment::embedder_preload] *)
Definition embedder_preload (env : Environment) : EmbedderPreloadCallback :=
  embedder_preload_ env.

(** [Environment::set_embedder_preload] *)
Definition set_embedder_preload (fn : EmbedderPreloadCallback)
    (env : Environment) : Environment :=
  {| embedder_preload_ := fn;
     process_properties := process_properties env;
     hasStartedUserCJSExecution := hasStartedUserCJSExecution env;
     hasStartedUserESMExecution := hasStartedUserESMExecution env;
     steps := steps env |}.

(** A newly created environment: no hook, nothing run yet. *)
Definition CreateEnvironment : Environment :=
  {| embedder_preload_ := None;
     process_properties := ∅;
     hasStartedUserCJSExecution := false;
     hasStartedUserESMExecution := false;
     steps := [] |}.

(** [v8::Object::Set]: [None] is [Nothing], the store threw. *)
Definition Object_Set (throws : bool) (o : gmap string Value) (key : string)
    (v : Value) : option (gmap string Value) :=
  if throws then None else Some (<[key := v]> o).

(** [GetEmbedderOptions] (node_options.cc).  [earlier] is the object as the
    properties set before the patched lines left it, [None] when one of
    those stores failed and the function returned early; the result is the
    object handed to [args.GetReturnValue()], if any. *)
Definition GetEmbedderOptions (env : Environment)
    (earlier : option (gmap string Value)) (throws : bool)
  : option (gmap string Value) :=
  ret ← earlier;
  Object_Set throws ret "hasEmbedderPreload"
      (Boolean (bool_decide (embedder_preload env ≠ None))).

(** [CHECK(condition)] *)
Definition CHECK (condition : bool) : JS unit :=
  if condition then mret tt else fatal.

(** [RunEmbedderPreload] (node_snapshotable.cc) *)
Definition RunEmbedderPreload (args : list Value) : JS unit :=
  fn ← gets embedder_preload;
  CHECK (bool_decide (fn ≠ None));;
  CHECK (bool_decide (length args = 2));;
  let process_obj := default Undefined (args !! 0) in
  let require_fn := default Undefined (args !! 1) in
  CHECK (IsObject process_obj);;
  CHECK (IsFunction require_fn);;
  match fn with
  | Some f =>
      log (EmbedderPreloadCalled (preload_name f) process_obj require_fn);;
      modify (fun env =>
        {| embedder_preload_ := embedder_preload_ env;
           process_properties := preload_body f (process_properties env);
           hasStartedUserCJSExecution := hasStartedUserCJSExecution env;
           hasStartedUserESMExecution := hasStartedUserESMExecution env;
           steps := steps env |})
  | None => fatal
  end.

(** [runEmbedderPreload] (pre_execution.js) *)
Definition runEmbedderPreload : JS unit :=
  RunEmbedderPreload [process; require].

(** [assert(condition)] in the bootstrap scripts. *)
Definition assert (condition : bool) : JS unit :=
  if condition then mret tt else fatal.

(** Modelled from the spec: the script-side [getEmbedderOptions()] is
    outside the patch; it hands the scripting layer the options object
    built by [GetEmbedderOptions] for the current environment. *)
Definition getEmbedderOptions : JS (gmap string Value) :=
  env ← gets (fun env => env);
  match GetEmbedderOptions env (Some ∅) false with
  | Some options => mret options
  | None => fatal
  end.

(** Modelled from the spec: the body of [loadPreloadModules] is outside the
    patch; it loads the modules named by [--require]. *)
Definition loadPreloadModules : JS unit := log PreloadModulesLoaded.

(** [setupUserModules] (pre_execution.js), from the two assertions on.  The
    statements after the inserted hook are outside the patch; the comment
    kept in its context says they enable the preload modules unless custom
    loaders are disabled. *)
Definition setupUserModules (forceDefaultLoader : bool) : JS unit :=
  cjs ← gets hasStartedUserCJSExecution;
  assert (negb cjs);;
  esm ← gets hasStartedUserESMExecution;
  assert (negb esm);;
  options ← getEmbedderOptions;
  (if bool_decide (options !! "hasEmbedderPreload" = Some (Boolean true))
   then runEmbedderPreload else mret tt);;
  (if negb forceDefaultLoader then loadPreloadModules else mret tt).

(** [StartExecutionCallback]: the entry point, here a script that computes
    a value from the properties of [process]; [None] is the empty callback,
    which runs the default entry point. *)
Definition StartExecutionCallback := option (gmap string Value -> Value).

(** Modelled from the spec: [StartExecution] is outside the patch.  The
    bootstrap sets up the user module loaders once and then executes the
    entry point, the first user code of the environment. *)
Definition StartExecution (cb : StartExecutionCallback) : JS Value :=
  setupUserModules false;;
  log UserCodeStarted;;
  modify (fun env =>
    {| embedder_preload_ := embedder_preload_ env;
       process_properties := process_properties env;
       hasStartedUserCJSExecution := true;
       hasStartedUserESMExecution := hasStartedUserESMExecution env;
       steps := steps env |});;
  properties ← gets process_properties;
  mret (match cb with Some main => main properties | None => Undefined end).

(** [LoadEnvironment(env, cb, preload)] (api/environment.cc) *)
Definition LoadEnvironment (cb : StartExecutionCallback)
    (preload : EmbedderPreloadCallback) : JS Value :=
  log LibuvInitialized;;
  log DiagnosticsInitialized;;
  (if bool_decide (preload ≠ None)
   then modify (set_embedder_preload preload) else mret tt);;
  StartExecution cb.

(** [class Worker]: the field added by the patch. *)
Record Worker := mkWorker {
  worker_embedder_preload_ : EmbedderPreloadCallback
}.

(** [Worker::Worker(env, ...)]: the member initializer added by the patch. *)
Definition Worker_new (env : Environment) : Worker :=
  {| worker_embedder_preload_ := embedder_preload env |}.

(** [Worker::Run]: the worker's own environment is created and loaded with
    the hook the worker carries. *)
Definition Worker_Run (w : Worker) : Outcome Environment Value :=
  LoadEnvironment None (worker_embedder_preload_ w) CreateEnvironment.

(** The steps the hook contributes to a bootstrap: one call with [process]
    and [require] when a function is registered, nothing otherwise. *)
Definition preload_steps (fn : EmbedderPreloadCallback) : list Step :=
  match fn with
  | Some f => [EmbedderPreloadCalled (preload_name f) process require]
  | None => []
  end.

(** The hook an environment ends up with when it is loaded with [preload]. *)
Definition effective_preload (preload : EmbedderPreloadCallback)
    (env : Environment) : EmbedderPreloadCallback :=
  match preload with Some f => Some f | None => embedder_preload env end.

(** The embedder test [EnvironmentTest.EmbedderPreload]: the hook stores
    ["preload"] under [process.prop]; the main script returns
    [process.prop]. *)
Definition test_preload : PreloadFunction :=
  mkPreload 1 (fun properties => <["prop" := Str "preload"]> properties).

Definition test_main_script : gmap string Value -> Value :=
  fun properties => default Undefined (properties !! "prop").

End Node.

(* ===================================================================== *)
(** * The WebAssembly trap handler flag                                   *)
(* ===================================================================== *)

Module Wasm.

Local Open Scope Z_scope.

(** [ProcessInitializationFlags::Flags], a [uint32_t] bit set: the three
    bits in the patch and its context. *)
Definition kNoInitializeCppgc : Z := Z.shiftl 1 13.
Definition kGeneratePredictableSnapshot : Z := Z.shiftl 1 14.
Definition kNoEnableWasmTrapHandler : Z := Z.shiftl 1 15.

(** The process-wide V8 state touched here: the arguments of the calls to
    [V8::EnableWebAssemblyTrapHandler] made so far. *)
Record V8 := mkV8 {
  EnableWebAssemblyTrapHandler_calls : list bool
}.

(** [V8::EnableWebAssemblyTrapHandler]: "can be called only once or it will
    hard crash". *)
Definition EnableWebAssemblyTrapHandler (use_v8_signal_handler : bool)
  : Effects.M V8 unit :=
  fun v8 =>
    match EnableWebAssemblyTrapHandler_calls v8 with
    | [] => Returned tt (mkV8 [use_v8_signal_handler])
    | _ :: _ => Fatal v8
    end.

(** [PlatformInit] (node.cc), the patched region.  [trap_handler_compiled_in]
    is the build macro [NODE_USE_V8_WASM_TRAP_HANDLER]; [in_enclosing_block]
    tells whether the block that contains the region, whose header is
    above the patch context, is entered for these flags. *)
Definition PlatformInit (trap_handler_compiled_in : bool)
    (in_enclosing_block : Z -> bool) (flags : Z) : Effects.M V8 unit :=
  if in_enclosing_block flags then
    if trap_handler_compiled_in then
      if Z.land flags kNoEnableWasmTrapHandler =? 0
      then EnableWebAssemblyTrapHandler false
      else mret tt
    else mret tt
  else mret tt.

End Wasm.

(* ===================================================================== *)
(** * The accessibility diagnostic page without Profile references        *)
(* ===================================================================== *)

Module Accessibility.

(** [base::Value], as far as the handlers build it. *)
#[warnings="-register-all"]
Inductive Value :=
| BoolValue (b : bool)
| StringValue (s : string)
| ListValue (items : list Value).

(** [ui::AXApiType::Type]: [kBlink], and the other API types by name. *)
Inductive AXApiType :=
| kBlink
| other_api (name : string).

(** [#if condition ... #else ... #endif] *)
Definition preprocessor_if {A : Type} (condition : Z) (then_ else_ : A) : A :=
  if bool_decide (condition = 0%Z) then else_ else then_.

(** The preference store of a profile ([PrefService]): string preferences
    by name. *)
Record PrefService := mkPrefs {
  string_prefs : gmap string string
}.

Definition GetString (pref : PrefService) (path : string) : string :=
  default "" (string_prefs pref !! path).

Definition SetString (path value : string) (pref : PrefService) : PrefService :=
  mkPrefs (<[path := value]> (string_prefs pref)).

(** What the handlers take from the rest of accessibility_ui.cc and from
    the browser. *)
Record Page := mkPage {
  (** field names and the preference path, declared above the patched
      lines *)
  kApiTypeField : string;
  kBrowsersField : string;
  kPagesField : string;
  kShownAccessibilityApiType : string;
  (** the statements of [HandleAccessibilityRequestCallback] that the patch
      context does not show: what is stored before [pref_api_type] is
      declared, what is done with [pref_api_type] up to the page list, and
      what is stored after the browsers list *)
  mode_fields : gmap string Value -> gmap string Value;
  api_type_fields : string -> gmap string Value -> gmap string Value;
  page_list : list Value;
  widget_fields : gmap string Value -> gmap string Value;
  (** [ui::AXApiType::From(std::string)] *)
  AXApiType_From : string -> AXApiType;
  (** [BrowserList::GetInstance()], as target descriptors *)
  open_browsers : list Value;
  (** [WebContents::DumpAccessibilityTree] *)
  DumpAccessibilityTree : AXApiType -> string
}.

(** The local [pref_api_type] of [HandleAccessibilityRequestCallback]. *)
Definition pref_api_type : string := "blink".

(** The local [browser_list] at the point where it is stored in the data:
    the loop over the open browsers is under [#if 0]. *)
Definition browser_list (p : Page) : list Value :=
  preprocessor_if 0 (foldl (fun l browser => l ++ [browser]) [] (open_browsers p)) [].

(** [HandleAccessibilityRequestCallback]: the data sent to the page.  The
    profile's preference store is at hand in the browser context; the
    lookup of it is under [#if 0]. *)
Definition HandleAccessibilityRequestCallback (p : Page) (profile : PrefService)
  : gmap string Value :=
  let pref : option PrefService := preprocessor_if 0 (Some profile) None in
  let data : gmap string Value := ∅ in
  let data := mode_fields p data in
  let data := api_type_fields p pref_api_type data in
  let data := <[kPagesField p := ListValue (page_list p)]> data in
  let data := <[kBrowsersField p := ListValue (browser_list p)]> data in
  widget_fields p data.

(** [AccessibilityUIMessageHandler::SetGlobalString]: the preference store
    after the call. *)
Definition SetGlobalString (p : Page) (string_name value : string)
    (profile : PrefService) : PrefService :=
  if bool_decide (string_name = kApiTypeField p)
  then preprocessor_if 0
         (SetString (kShownAccessibilityApiType p) value profile) profile
  else profile.

(** The local [api_type] of [RequestWebContentsTree]. *)
Definition api_type (p : Page) (profile : PrefService) : AXApiType :=
  preprocessor_if 0
    (AXApiType_From p (GetString profile (kShownAccessibilityApiType p)))
    kBlink.

(** [AccessibilityUIMessageHandler::RequestWebContentsTree]: the tree stored
    in the result. *)
Definition RequestWebContentsTree (p : Page) (profile : PrefService) : string :=
  DumpAccessibilityTree p (api_type p profile).

(** A page and two preference stores to run the handlers on. *)
Definition example_page : Page :=
  {| kApiTypeField := "apiType";
     kBrowsersField := "browsers";
     kPagesField := "pages";
     kShownAccessibilityApiType := "accessibility.shown_api_type";
     mode_fields := fun data => <["native" := BoolValue true]> data;
     api_type_fields := fun api data => <["apiType" := StringValue api]> data;
     page_list := [StringValue "about:blank"];
     widget_fields := fun data => <["widgets" := ListValue []]> data;
     AXApiType_From := fun s =>
       if bool_decide (s = "blink") then kBlink else other_api s;
     open_browsers := [StringValue "window-1"; StringValue "window-2"];
     DumpAccessibilityTree := fun api =>
       match api with
       | kBlink => "blink tree"
       | other_api name => name ++ " tree"
       end%string |}.

Definition example_profile : PrefService :=
  mkPrefs {[ "accessibility.shown_api_type" := "uia" ]}.

End Accessibility.

(* ===================================================================== *)
(** * Callers of the controller                                           *)
(* ===================================================================== *)

Module MediaClients.
Import Media.

(** A call of one of the methods of the controller that may run the
    callback. *)
Inductive Call :=
| CallTakeAction
| CallAccept
| CallDeny (result : MediaStreamRequestResult)
| CallHandleUserMediaRequest.

Definition perform (h : Host) (call : Call) (c : MediaStreamDevicesController)
  : M MediaStreamDevicesController :=
  match call with
  | CallTakeAction => TakeAction h c
  | CallAccept => Accept h c
  | CallDeny result => Deny c result
  | CallHandleUserMediaRequest => HandleUserMediaRequest h c
  end.

(** The calls of a caller, one after the other on the same controller. *)
Fixpoint perform_all (h : Host) (calls : list Call)
    (c : MediaStreamDevicesController) : M MediaStreamDevicesController :=
  match calls with
  | [] => mret c
  | call :: rest => c' ← perform h call c; perform_all h rest c'
  end.

(** A controller constructed for a request, used by a caller, destroyed. *)
Definition use (h : Host) (request : MediaStreamRequest)
    (callback : MediaResponseCallback) (calls : list Call) : M unit :=
  c ← perform_all h calls (Create request callback);
  Destroy c.

End MediaClients.

(* ===================================================================== *)
(** * Sequencing of effects                                               *)
(* ===================================================================== *)

Module EffectsProperties.

Lemma bind_Returned {S A B : Type} (m : Effects.M S A) (k : A -> Effects.M S B)
    (s s' : S) (a : A) :
  m s = Returned a s' -> (m ≫= k) s = k a s'.
Proof. intros Hm. unfold mbind, M_bind, bind. now rewrite Hm. Qed.

Lemma bind_Fatal {S A B : Type} (m : Effects.M S A) (k : A -> Effects.M S B)
    (s s' : S) :
  m s = Fatal s' -> (m ≫= k) s = Fatal s'.
Proof. intros Hm. unfold mbind, M_bind, bind. now rewrite Hm. Qed.

End EffectsProperties.

Export EffectsProperties.

(* ===================================================================== *)
(** * Properties of the media stream device request broker                *)
(* ===================================================================== *)

Module MediaProperties.
Import Media.

(** ** The destructor *)

Lemma Destroy_unfired (c : MediaStreamDevicesController) (cb : nat) (t : Trace) :
  callback_ c = Some cb ->
  Destroy c t = Returned tt (t ++ [Ran cb [] FAILED_DUE_TO_SHUTDOWN]).
Proof. intros Hcb. unfold Destroy. now rewrite Hcb. Qed.

Lemma Destroy_fired (c : MediaStreamDevicesController) (t : Trace) :
  callback_ c = None -> Destroy c t = Returned tt t.
Proof. intros Hcb. unfold Destroy. now rewrite Hcb. Qed.

(** ** The three methods that run the callback *)

Lemma Deny_runs (c : MediaStreamDevicesController) (cb : nat)
    (result : MediaStreamRequestResult) (t : Trace) :
  callback_ c = Some cb ->
  Deny c result t = Returned (moved_from c) (t ++ [Ran cb [] result]).
Proof. intros Hcb. unfold Deny. now rewrite Hcb. Qed.

Lemma HandleUserMediaRequest_runs (h : Host) (c : MediaStreamDevicesController)
    (cb : nat) (t : Trace) :
  callback_ c = Some cb ->
  HandleUserMediaRequest h c t =
    Returned (moved_from c)
      (t ++ [Ran cb (synthesized_devices h (request_ c))
               (if bool_decide (synthesized_devices h (request_ c) = [])
                then NO_HARDWARE else OK)]).
Proof. intros Hcb. unfold HandleUserMediaRequest. now rewrite Hcb. Qed.

Lemma Accept_runs (h : Host) (c : MediaStreamDevicesController) (cb : nat)
    (devices : MediaStreamDevices) (t : Trace) :
  callback_ c = Some cb ->
  default_devices h c t = Returned devices t ->
  Accept h c t = Returned (moved_from c) (t ++ [Ran cb devices OK]).
Proof.
  intros Hcb Hdev. unfold Accept.
  rewrite (bind_Returned _ _ _ _ _ Hdev). now rewrite Hcb.
Qed.

Lemma Accept_unreachable (h : Host) (c : MediaStreamDevicesController) (t : Trace) :
  default_devices h c t = Fatal t -> Accept h c t = Fatal t.
Proof. intros Hdev. unfold Accept. now rewrite (bind_Fatal _ _ _ _ Hdev). Qed.

(** [default_devices] only reads; it dies exactly on the update-type
    branch. *)
Lemma default_devices_cases (h : Host) (c : MediaStreamDevicesController) (t : Trace) :
  (exists devices, default_devices h c t = Returned devices t)
  \/ (default_devices h c t = Fatal t
      /\ request_type (request_ c) = MEDIA_DEVICE_UPDATE
      /\ microphone_requested_ c || webcam_requested_ c = true).
Proof.
  unfold default_devices.
  destruct (microphone_requested_ c || webcam_requested_ c) eqn:Hreq.
  - destruct (request_type (request_ c)) eqn:Htype.
    + left. eexists. reflexivity.
    + right. repeat split; reflexivity.
    + left. eexists. reflexivity.
    + left. eexists. reflexivity.
  - left. eexists. reflexivity.
Qed.

(** ** The device list synthesized for tab and desktop capture *)

Lemma synthesized_devices_nonempty (h : Host) (request : MediaStreamRequest) :
  is_tab_or_desktop_capture request = true ->
  synthesized_devices h request <> [].
Proof.
  unfold is_tab_or_desktop_capture, synthesized_devices. intros Hcap.
  repeat case_bool_decide; simpl in *; try discriminate;
    intros Hnil; apply (f_equal length) in Hnil;
    rewrite ?length_app in Hnil; simpl in Hnil; lia.
Qed.

(** ** The paths through [TakeAction] *)

Section Paths.
Variable h : Host.
Variable request : MediaStreamRequest.
Variable cb : nat.
Variable t : Trace.

Let controller := Create request (Some cb).

(** Tab and desktop capture: the callback is run with the synthesized
    list, which is never empty on this path. *)
Lemma TakeAction_capture :
  is_tab_or_desktop_capture request = true ->
  TakeAction h controller t =
    Returned (moved_from controller)
      (t ++ [Ran cb (synthesized_devices h request) OK]).
Proof.
  intros Hcap. unfold TakeAction. simpl. rewrite Hcap.
  rewrite (HandleUserMediaRequest_runs h controller cb t eq_refl). simpl.
  rewrite bool_decide_eq_false_2; [reflexivity|].
  now apply synthesized_devices_nonempty.
Qed.

(** The frame is gone: nothing happens. *)
Lemma TakeAction_dead_frame :
  is_tab_or_desktop_capture request = false ->
  FromID h (render_process_id request) (render_frame_id request) = None ->
  TakeAction h controller t = Returned controller t.
Proof.
  intros Hcap Hrfh. unfold TakeAction. simpl. now rewrite Hcap, Hrfh.
Qed.

(** The session takes the request over. *)
Lemma TakeAction_delegated :
  delegated h request = true ->
  TakeAction h controller t =
    Returned (moved_from controller) (t ++ [MovedToSession cb request]).
Proof.
  unfold delegated. intros Hdel.
  apply andb_prop in Hdel as [Hcap Hacc].
  apply negb_true_iff in Hcap.
  unfold TakeAction. simpl. rewrite Hcap.
  destruct (FromID h _ _) as [rfh|]; [|discriminate].
  unfold mbind, M_bind, bind, ChooseMediaDevice. simpl. now rewrite Hacc.
Qed.

(** The session declines: what follows is [Accept] or [Deny] on the
    controller as it was. *)
Lemma TakeAction_declined (rfh : RenderFrameHost) :
  is_tab_or_desktop_capture request = false ->
  FromID h (render_process_id request) (render_frame_id request) = Some rfh ->
  accepts_responsibility
    (FromBrowserContext h (GetBrowserContext h rfh)) request = false ->
  TakeAction h controller t =
    if HasAnyAvailableDevice h then Accept h controller t
    else Deny controller NO_HARDWARE t.
Proof.
  intros Hcap Hrfh Hacc. unfold TakeAction. simpl. rewrite Hcap, Hrfh.
  unfold mbind, M_bind, bind, ChooseMediaDevice. simpl. rewrite Hacc.
  now destruct (HasAnyAvailableDevice h).
Qed.

(** Which of the four paths a request takes. *)
Lemma TakeAction_paths :
  is_tab_or_desktop_capture request = true
  \/ (is_tab_or_desktop_capture request = false
      /\ FromID h (render_process_id request) (render_frame_id request) = None)
  \/ delegated h request = true
  \/ (exists rfh,
        is_tab_or_desktop_capture request = false
        /\ FromID h (render_process_id request) (render_frame_id request)
           = Some rfh
        /\ accepts_responsibility
             (FromBrowserContext h (GetBrowserContext h rfh)) request = false).
Proof.
  unfold delegated.
  destruct (is_tab_or_desktop_capture request); [now left|]. right.
  destruct (FromID h _ _) as [rfh|]; [|now left]. right. simpl.
  destruct (accepts_responsibility _ request) eqn:Hacc; [now left|].
  right. now exists rfh.
Qed.

(** Whatever the path, [TakeAction] either dies in [Accept] before it
    touches the callback, or returns having consumed the callback exactly
    once or not at all; in the last case the controller still holds it. *)
Lemma TakeAction_outcome :
  (TakeAction h controller t = Fatal t
   /\ request_type request = MEDIA_DEVICE_UPDATE
   /\ delegated h request = false)
  \/ (exists devices result,
        TakeAction h controller t =
          Returned (moved_from controller) (t ++ [Ran cb devices result])
        /\ delegated h request = false
        /\ ((result = OK
             /\ (devices = synthesized_devices h request
                 \/ default_devices h controller t = Returned devices t))
            \/ (devices = [] /\ result = NO_HARDWARE)))
  \/ (TakeAction h controller t =
        Returned (moved_from controller) (t ++ [MovedToSession cb request])
      /\ delegated h request = true)
  \/ (TakeAction h controller t = Returned controller t
      /\ delegated h request = false
      /\ is_tab_or_desktop_capture request = false
      /\ FromID h (render_process_id request) (render_frame_id request) = None).
Proof.
  destruct TakeAction_paths as [Hcap | [[Hcap Hrfh] | [Hdel | (rfh & Hcap & Hrfh & Hacc)]]].
  - right; left. exists (synthesized_devices h request), OK.
    rewrite (TakeAction_capture Hcap). unfold delegated. rewrite Hcap.
    repeat split; auto.
  - right; right; right. rewrite (TakeAction_dead_frame Hcap Hrfh).
    unfold delegated. rewrite Hcap, Hrfh. auto.
  - right; right; left. now rewrite (TakeAction_delegated Hdel).
  - assert (Hdel : delegated h request = false).
    { unfold delegated. rewrite Hcap, Hrfh. simpl. exact Hacc. }
    rewrite (TakeAction_declined rfh Hcap Hrfh Hacc).
    destruct (HasAnyAvailableDevice h).
    + destruct (default_devices_cases h controller t)
        as [[devices Hdev] | (Hdev & Hupd & _)].
      * right; left. exists devices, OK.
        rewrite (Accept_runs h controller cb devices t eq_refl Hdev).
        repeat split; auto.
      * left. rewrite (Accept_unreachable h controller t Hdev). auto.
    + right; left. exists [], NO_HARDWARE.
      rewrite (Deny_runs controller cb NO_HARDWARE t eq_refl).
      repeat split; auto.
Qed.

End Paths.

(** ** The life of a controller *)

(** A controller dies on the fatal assertion only for an update-type
    request that asked for a microphone or a webcam and was about to be
    accepted. *)
Lemma lifetime_fatal_only_for_update (h : Host) (request : MediaStreamRequest)
    (cb : nat) (t : Trace) (t' : Trace) :
  lifetime h request (Some cb) t = Fatal t' ->
  t' = t
  /\ request_type request = MEDIA_DEVICE_UPDATE
  /\ delegated h request = false
  /\ HasAnyAvailableDevice h = true.
Proof.
  unfold lifetime. intros Hlife.
  destruct (TakeAction_paths h request)
    as [Hcap | [[Hcap Hrfh] | [Hdel | (rfh & Hcap & Hrfh & Hacc)]]].
  - rewrite (bind_Returned _ _ _ _ _ (TakeAction_capture h request cb t Hcap))
      in Hlife. discriminate.
  - rewrite (bind_Returned _ _ _ _ _ (TakeAction_dead_frame h request cb t Hcap Hrfh))
      in Hlife. discriminate.
  - rewrite (bind_Returned _ _ _ _ _ (TakeAction_delegated h request cb t Hdel))
      in Hlife. discriminate.
  - assert (Hdel : delegated h request = false).
    { unfold delegated. rewrite Hcap, Hrfh. simpl. exact Hacc. }
    pose proof (TakeAction_declined h request cb t rfh Hcap Hrfh Hacc) as Htake.
    destruct (HasAnyAvailableDevice h) eqn:Hany.
    + destruct (default_devices_cases h (Create request (Some cb)) t)
        as [[devices Hdev] | (Hdev & Hupd & _)].
      * rewrite (Accept_runs h (Create request (Some cb)) cb devices t eq_refl Hdev)
          in Htake.
        rewrite (bind_Returned _ _ _ _ _ Htake) in Hlife. discriminate.
      * rewrite (Accept_unreachable h _ t Hdev) in Htake.
        rewrite (bind_Fatal _ _ _ _ Htake) in Hlife.
        injection Hlife as <-. auto.
    + rewrite (Deny_runs (Create request (Some cb)) cb NO_HARDWARE t eq_refl)
        in Htake.
      rewrite (bind_Returned _ _ _ _ _ Htake) in Hlife. discriminate.
Qed.

(** The edge case itself: an update-type request for a microphone or a
    webcam that reaches [Accept] ends in the fatal assertion, and the
    callback is never run. *)
Lemma update_request_is_fatal (h : Host) (request : MediaStreamRequest)
    (cb : nat) (t : Trace) (rfh : RenderFrameHost) :
  is_tab_or_desktop_capture request = false ->
  FromID h (render_process_id request) (render_frame_id request) = Some rfh ->
  accepts_responsibility
    (FromBrowserContext h (GetBrowserContext h rfh)) request = false ->
  HasAnyAvailableDevice h = true ->
  request_type request = MEDIA_DEVICE_UPDATE ->
  audio_type request = DEVICE_AUDIO_CAPTURE
  \/ video_type request = DEVICE_VIDEO_CAPTURE ->
  lifetime h request (Some cb) t = Fatal t.
Proof.
  intros Hcap Hrfh Hacc Hany Hupd Hkind. unfold lifetime.
  apply bind_Fatal.
  rewrite (TakeAction_declined h request cb t rfh Hcap Hrfh Hacc), Hany.
  apply Accept_unreachable.
  unfold default_devices, Create; simpl. rewrite Hupd.
  destruct Hkind as [Hkind | Hkind]; rewrite Hkind;
    rewrite (bool_decide_eq_true_2 (_ = _) eq_refl); simpl;
    rewrite ?orb_true_r; reflexivity.
Qed.

(** ** The specified properties *)



(** C2, as amended.  For every non-desktop request whose frame is live and
    which the session declines: if the host has no audio and no video
    capture device at all, the completion callback fires with NO_HARDWARE
    and an empty device list. *)
Theorem no_hardware_when_no_device_at_all (h : Host)
    (request : MediaStreamRequest) (cb : nat) (t : Trace) (rfh : RenderFrameHost) :
  is_tab_or_desktop_capture request = false ->
  FromID h (render_process_id request) (render_frame_id request) = Some rfh ->
  accepts_responsibility
    (FromBrowserContext h (GetBrowserContext h rfh)) request = false ->
  GetAudioCaptureDevices h = [] ->
  GetVideoCaptureDevices h = [] ->
  TakeAction h (Create request (Some cb)) t =
    Returned (moved_from (Create request (Some cb)))
      (t ++ [Ran cb [] NO_HARDWARE]).
Proof.
  intros Hcap Hrfh Hacc Haudio Hvideo.
  rewrite (TakeAction_declined h request cb t rfh Hcap Hrfh Hacc).
  unfold HasAnyAvailableDevice. rewrite Haudio, Hvideo. simpl.
  now apply Deny_runs.
Qed.

(** C3.  Every resolution of a request by the broker is either a list of
    granted device descriptors with result OK, or an empty list with a
    failure reason.  Method by method: [Deny] always hands over the empty
    list; [HandleUserMediaRequest] hands over the synthesized list, OK when
    it is not empty and NO_HARDWARE when it is; [Accept] hands over the
    default devices with OK.  Over the life of a controller: every run of
    the callback is OK with the synthesized or the default devices, or is
    an empty list with NO_HARDWARE or FAILED_DUE_TO_SHUTDOWN. *)
Theorem resolutions_are_grants_or_empty_failures (h : Host)
    (request : MediaStreamRequest) (cb : nat) (t : Trace) :
  (forall c result t0, callback_ c = Some cb ->
      Deny c result t0 = Returned (moved_from c) (t0 ++ [Ran cb [] result]))
  /\ (forall c t0, callback_ c = Some cb ->
      exists devices result,
        HandleUserMediaRequest h c t0 =
          Returned (moved_from c) (t0 ++ [Ran cb devices result])
        /\ devices = synthesized_devices h (request_ c)
        /\ ((result = OK /\ devices <> []) \/ (result = NO_HARDWARE /\ devices = [])))
  /\ (forall c t0 t1 e, callback_ c = Some cb ->
      final_state (Accept h c t0) = t0 ++ t1 -> e ∈ t1 ->
      exists devices,
        e = Ran cb devices OK /\ default_devices h c t0 = Returned devices t0)
  /\ (exists fired,
        final_state (lifetime h request (Some cb) t) = t ++ fired
        /\ forall c devices result,
            Ran c devices result ∈ fired ->
            c = cb
            /\ ((result = OK
                 /\ (devices = synthesized_devices h request
                     \/ default_devices h (Create request (Some cb)) t
                        = Returned devices t))
                \/ (devices = []
                    /\ (result = NO_HARDWARE \/ result = FAILED_DUE_TO_SHUTDOWN)))).
Proof.
  split; [|split; [|split]].
  - intros c result t0 Hcb. now apply Deny_runs.
  - intros c t0 Hcb. eexists _, _. split; [now apply HandleUserMediaRequest_runs|].
    split; [reflexivity|]. case_bool_decide; auto.
  - intros c t0 t1 e Hcb Hfinal Hin.
    destruct (default_devices_cases h c t0) as [[devices Hdev] | (Hdev & _)].
    + rewrite (Accept_runs h c cb devices t0 Hcb Hdev) in Hfinal. simpl in Hfinal.
      apply app_inv_head in Hfinal. subst t1.
      apply list_elem_of_singleton in Hin. subst e. eauto.
    + rewrite (Accept_unreachable h c t0 Hdev) in Hfinal. simpl in Hfinal.
      rewrite <- (app_nil_r t0) in Hfinal at 1.
      apply app_inv_head in Hfinal. subst t1. inversion Hin.
  - unfold lifetime.
    destruct (TakeAction_outcome h request cb t)
      as [(Htake & _)
         | [(devices & result & Htake & _ & Hshape)
           | [[Htake _] | (Htake & _)]]].
    + exists []. rewrite (bind_Fatal _ _ _ _ Htake). simpl.
      split; [now rewrite app_nil_r|]. intros c devices result Hin. inversion Hin.
    + exists [Ran cb devices result].
      rewrite (bind_Returned _ _ _ _ _ Htake), Destroy_fired by reflexivity.
      split; [reflexivity|]. intros c devices' result' Hin.
      apply list_elem_of_singleton in Hin. injection Hin as -> -> ->.
      split; [reflexivity|]. destruct Hshape as [[-> Hdev] | [-> ->]]; auto.
    + exists [MovedToSession cb request].
      rewrite (bind_Returned _ _ _ _ _ Htake), Destroy_fired by reflexivity.
      split; [reflexivity|]. intros c devices result Hin.
      apply list_elem_of_singleton in Hin. discriminate.
    + exists [Ran cb [] FAILED_DUE_TO_SHUTDOWN].
      rewrite (bind_Returned _ _ _ _ _ Htake), (Destroy_unfired _ cb) by reflexivity.
      split; [reflexivity|]. intros c devices result Hin.
      apply list_elem_of_singleton in Hin. injection Hin as -> -> ->. auto.
Qed.

(** C4.  For every desktop-video capture request the broker grants, last
    in the list, a desktop-video descriptor named "Screen" whose id is the
    string form of the capture target; the target is the full-screen
    sentinel (TYPE_SCREEN, -1) when the requested video device id is empty
    and the screen identifier parsed from that id otherwise.  No other
    granted descriptor is a desktop-video one. *)
Theorem desktop_video_target (h : Host) (request : MediaStreamRequest)
    (cb : nat) (t : Trace) :
  video_type request = GUM_DESKTOP_VIDEO_CAPTURE ->
  exists others,
    TakeAction h (Create request (Some cb)) t =
      Returned (moved_from (Create request (Some cb)))
        (t ++ [Ran cb
                 (others ++ [mkDevice GUM_DESKTOP_VIDEO_CAPTURE
                               (ToString h (screen_id h request)) "Screen"])
                 OK])
    /\ Forall (fun d => type d <> GUM_DESKTOP_VIDEO_CAPTURE) others
    /\ (requested_video_device_id request = "" ->
        screen_id h request = mkDesktopMediaID TYPE_SCREEN (-1))
    /\ (requested_video_device_id request <> "" ->
        screen_id h request = Parse h (requested_video_device_id request)).
Proof.
  intros Hvideo.
  assert (Hcap : is_tab_or_desktop_capture request = true).
  { unfold is_tab_or_desktop_capture. rewrite Hvideo.
    rewrite (bool_decide_eq_true_2 (GUM_DESKTOP_VIDEO_CAPTURE = _) eq_refl).
    now rewrite !orb_true_r. }
  rewrite (TakeAction_capture h request cb t Hcap).
  unfold synthesized_devices. rewrite Hvideo.
  rewrite (bool_decide_eq_true_2 (GUM_DESKTOP_VIDEO_CAPTURE = _) eq_refl).
  rewrite (bool_decide_eq_false_2 (GUM_DESKTOP_VIDEO_CAPTURE = GUM_TAB_VIDEO_CAPTURE))
    by discriminate.
  eexists. split; [reflexivity|]. split; [|split].
  - repeat case_bool_decide; repeat constructor; simpl; discriminate.
  - intros Hid. unfold screen_id. now rewrite Hid.
  - intros Hid. unfold screen_id.
    destruct (requested_video_device_id request); [contradiction|reflexivity].
Qed.

(** A requested device id that matches no known device is not found. *)
Lemma FindDeviceWithId_unknown (devices : MediaStreamDevices) (device_id : string) :
  Forall (fun d => id d <> device_id) devices ->
  FindDeviceWithId devices device_id = None.
Proof.
  unfold FindDeviceWithId. induction 1 as [|d devices Hd _ IH]; simpl.
  - reflexivity.
  - now rewrite bool_decide_eq_false_2.
Qed.

(** C5.  For every accepted Pepper open-device request whose requested
    device id matches no known device of the requested kind, the broker
    grants exactly the first available device of that kind when the host has
    one: the first audio device for an audio request, the first video device
    for a video request. *)
Theorem pepper_falls_back_to_first_available (h : Host)
    (request : MediaStreamRequest) (cb : nat) (t : Trace)
    (first : MediaStreamDevice) (rest : MediaStreamDevices) :
  request_type request = MEDIA_OPEN_DEVICE_PEPPER_ONLY ->
  (audio_type request = DEVICE_AUDIO_CAPTURE ->
   Forall (fun d => id d <> requested_audio_device_id request)
     (GetAudioCaptureDevices h) ->
   GetAudioCaptureDevices h = first :: rest ->
   Accept h (Create request (Some cb)) t =
     Returned (moved_from (Create request (Some cb)))
       (t ++ [Ran cb [first] OK]))
  /\ (audio_type request <> DEVICE_AUDIO_CAPTURE ->
      video_type request = DEVICE_VIDEO_CAPTURE ->
      Forall (fun d => id d <> requested_video_device_id request)
        (GetVideoCaptureDevices h) ->
      GetVideoCaptureDevices h = first :: rest ->
      Accept h (Create request (Some cb)) t =
        Returned (moved_from (Create request (Some cb)))
          (t ++ [Ran cb [first] OK])).
Proof.
  intros Hpepper. split.
  - intros Haudio Hunknown Hfirst.
    apply Accept_runs; [reflexivity|].
    unfold default_devices, Create; simpl. rewrite Hpepper.
    rewrite (bool_decide_eq_true_2 (MEDIA_OPEN_DEVICE_PEPPER_ONLY = _) eq_refl).
    rewrite orb_true_r. simpl.
    unfold pepper_device. rewrite bool_decide_eq_true_2 by exact Haudio.
    unfold GetRequestedAudioDevice, GetFirstAvailableAudioDevice.
    rewrite (FindDeviceWithId_unknown _ _ Hunknown), Hfirst. reflexivity.
  - intros Hnot_audio Hvideo Hunknown Hfirst.
    apply Accept_runs; [reflexivity|].
    unfold default_devices, Create; simpl. rewrite Hpepper.
    rewrite (bool_decide_eq_true_2 (MEDIA_OPEN_DEVICE_PEPPER_ONLY = _) eq_refl).
    rewrite orb_true_r. simpl.
    unfold pepper_device. rewrite bool_decide_eq_false_2 by exact Hnot_audio.
    rewrite bool_decide_eq_true_2 by exact Hvideo.
    unfold GetRequestedVideoDevice, GetFirstAvailableVideoDevice.
    rewrite (FindDeviceWithId_unknown _ _ Hunknown), Hfirst. reflexivity.
Qed.

(** C10.  When [TakeAction] is invoked on a request that is neither tab nor
    desktop capture and whose render frame host no longer exists, it
    returns without running the callback: the trace is untouched and the
    controller still holds the callback.  The callback then runs only in
    the destructor, once, with FAILED_DUE_TO_SHUTDOWN and an empty device
    list. *)
Theorem dead_frame_resolved_by_destructor (h : Host)
    (request : MediaStreamRequest) (cb : nat) (t : Trace) :
  is_tab_or_desktop_capture request = false ->
  FromID h (render_process_id request) (render_frame_id request) = None ->
  TakeAction h (Create request (Some cb)) t
    = Returned (Create request (Some cb)) t
  /\ callback_ (Create request (Some cb)) = Some cb
  /\ lifetime h request (Some cb) t
     = Returned tt (t ++ [Ran cb [] FAILED_DUE_TO_SHUTDOWN]).
Proof.
  intros Hcap Hrfh.
  pose proof (TakeAction_dead_frame h request cb t Hcap Hrfh) as Htake.
  split; [exact Htake|]. split; [reflexivity|].
  unfold lifetime. rewrite (bind_Returned _ _ _ _ _ Htake).
  now apply Destroy_unfired.
Qed.

End MediaProperties.

(* ===================================================================== *)
(** * Properties of the embedder preload hook                             *)
(* ===================================================================== *)

Module NodeProperties.
Import Node.

Lemma GetEmbedderOptions_flag (env : Environment)
    (earlier : option (gmap string Value)) (throws : bool)
    (options : gmap string Value) :
  GetEmbedderOptions env earlier throws = Some options ->
  options !! "hasEmbedderPreload"
    = Some (Boolean (bool_decide (embedder_preload env <> None))).
Proof.
  unfold GetEmbedderOptions, Object_Set.
  destruct earlier as [ret|]; simpl; [|discriminate].
  destruct throws; [discriminate|].
  intros [= <-]. apply lookup_insert_eq.
Qed.

Lemma getEmbedderOptions_returns (env : Environment) :
  exists options,
    getEmbedderOptions env = Returned options env
    /\ options !! "hasEmbedderPreload"
       = Some (Boolean (bool_decide (embedder_preload env <> None))).
Proof.
  unfold getEmbedderOptions, mbind, M_bind, bind, gets.
  destruct (GetEmbedderOptions env (Some ∅) false) as [options|] eqn:Hopt.
  - exists options. split; [reflexivity|]. now apply GetEmbedderOptions_flag in Hopt.
  - discriminate.
Qed.

(** [runEmbedderPreload] with a registered function: all four checks pass
    and the function is called once, with [process] and [require]. *)
Lemma runEmbedderPreload_calls (env : Environment) (f : PreloadFunction) :
  embedder_preload env = Some f ->
  exists env',
    runEmbedderPreload env = Returned tt env'
    /\ steps env' = steps env ++ [EmbedderPreloadCalled (preload_name f) process require]
    /\ embedder_preload env' = Some f
    /\ hasStartedUserCJSExecution env' = hasStartedUserCJSExecution env
    /\ hasStartedUserESMExecution env' = hasStartedUserESMExecution env.
Proof.
  intros Hfn. unfold embedder_preload in Hfn.
  unfold runEmbedderPreload, RunEmbedderPreload, mbind, M_bind, bind, gets,
    embedder_preload.
  rewrite Hfn. simpl. eexists. split; [reflexivity|]. simpl. auto.
Qed.

(** [setupUserModules] in an environment where no user code has started:
    the hook, if any, is called, and only then are the preload modules
    loaded. *)
Lemma setupUserModules_steps (env : Environment) :
  hasStartedUserCJSExecution env = false ->
  hasStartedUserESMExecution env = false ->
  exists env',
    setupUserModules false env = Returned tt env'
    /\ steps env' = steps env ++ preload_steps (embedder_preload env)
                     ++ [PreloadModulesLoaded]
    /\ embedder_preload env' = embedder_preload env
    /\ hasStartedUserCJSExecution env' = false
    /\ hasStartedUserESMExecution env' = false.
Proof.
  intros Hcjs Hesm.
  destruct (getEmbedderOptions_returns env) as (options & Hopt & Hflag).
  unfold setupUserModules.
  erewrite bind_Returned by reflexivity. rewrite Hcjs.
  erewrite bind_Returned by reflexivity.
  erewrite bind_Returned by reflexivity. rewrite Hesm.
  erewrite bind_Returned by reflexivity.
  erewrite bind_Returned by exact Hopt. rewrite Hflag.
  destruct (embedder_preload env) as [f|] eqn:Hfn.
  - case_bool_decide as Hsome; [|congruence].
    rewrite bool_decide_eq_true_2 by reflexivity.
    destruct (runEmbedderPreload_calls env f Hfn)
      as (env1 & Hrun & Hsteps & Hfn1 & Hcjs1 & Hesm1).
    erewrite bind_Returned by exact Hrun.
    eexists. split; [reflexivity|]. simpl.
    rewrite Hsteps, <- app_assoc. simpl.
    unfold embedder_preload in *. repeat split; congruence.
  - case_bool_decide as Hnone; [congruence|].
    rewrite bool_decide_eq_false_2 by discriminate.
    erewrite bind_Returned by reflexivity.
    eexists. split; [reflexivity|]. simpl. auto.
Qed.

(** [StartExecution]: user code starts after [setupUserModules] is done. *)
Lemma StartExecution_steps (cb : StartExecutionCallback) (env : Environment) :
  hasStartedUserCJSExecution env = false ->
  hasStartedUserESMExecution env = false ->
  exists v env',
    StartExecution cb env = Returned v env'
    /\ steps env' = steps env ++ preload_steps (embedder_preload env)
                     ++ [PreloadModulesLoaded; UserCodeStarted].
Proof.
  intros Hcjs Hesm.
  destruct (setupUserModules_steps env Hcjs Hesm) as (env1 & Hsetup & Hsteps & _).
  unfold StartExecution, mbind, M_bind, bind. rewrite Hsetup. simpl.
  eexists _, _. split; [reflexivity|]. simpl.
  rewrite Hsteps, <- !app_assoc. reflexivity.
Qed.

Lemma LoadEnvironment_steps (cb : StartExecutionCallback)
    (preload : EmbedderPreloadCallback) (env : Environment) :
  hasStartedUserCJSExecution env = false ->
  hasStartedUserESMExecution env = false ->
  exists v env',
    LoadEnvironment cb preload env = Returned v env'
    /\ steps env' =
         steps env ++ [LibuvInitialized; DiagnosticsInitialized]
           ++ preload_steps (effective_preload preload env)
           ++ [PreloadModulesLoaded; UserCodeStarted].
Proof.
  intros Hcjs Hesm.
  unfold LoadEnvironment, mbind, M_bind, bind. simpl.
  destruct preload as [f|]; simpl.
  - match goal with |- context [StartExecution cb ?e] =>
      destruct (StartExecution_steps cb e Hcjs Hesm) as (v & env' & Hstart & Hsteps)
    end.
    rewrite Hstart. exists v, env'. split; [reflexivity|].
    rewrite Hsteps. simpl. now rewrite <- !app_assoc.
  - match goal with |- context [StartExecution cb ?e] =>
      destruct (StartExecution_steps cb e Hcjs Hesm) as (v & env' & Hstart & Hsteps)
    end.
    rewrite Hstart. exists v, env'. split; [reflexivity|].
    rewrite Hsteps. simpl. now rewrite <- !app_assoc.
Qed.

(** The embedder test of the patch: loading an environment with a hook that
    stores ["preload"] under [process.prop] makes the main script
    [return process.prop] yield ["preload"]. *)
Example EnvironmentTest_EmbedderPreload :
  exists env,
    LoadEnvironment (Some test_main_script) (Some test_preload) CreateEnvironment
      = Returned (Str "preload") env.
Proof. eexists. vm_compute. reflexivity. Qed.

(** ** The specified properties *)

(** C6.  The embedder preload hook runs during the bootstrap of an
    environment, after the internal setup ([InitializeLibuv],
    [InitializeDiagnostics]) and before the preload modules are loaded and
    before any user code starts, exactly once, and it is called with the
    process object and the internal require function.  A worker carries the
    hook of the environment that created it, and the bootstrap of the
    worker's own environment calls it in the same place, once.  Without a
    hook no call is made. *)
Theorem embedder_preload_runs_once_before_user_code
    (cb : StartExecutionCallback) (f : PreloadFunction)
    (env parent : Environment) :
  hasStartedUserCJSExecution env = false ->
  hasStartedUserESMExecution env = false ->
  (exists v env',
      LoadEnvironment cb (Some f) env = Returned v env'
      /\ steps env' =
           steps env ++
           [LibuvInitialized; DiagnosticsInitialized;
            EmbedderPreloadCalled (preload_name f) (Object "process")
              (Function "require");
            PreloadModulesLoaded; UserCodeStarted])
  /\ (embedder_preload parent = Some f ->
      worker_embedder_preload_ (Worker_new parent) = Some f
      /\ exists v env',
          Worker_Run (Worker_new parent) = Returned v env'
          /\ steps env' =
               [LibuvInitialized; DiagnosticsInitialized;
                EmbedderPreloadCalled (preload_name f) (Object "process")
                  (Function "require");
                PreloadModulesLoaded; UserCodeStarted])
  /\ (embedder_preload env = None ->
      exists v env',
        LoadEnvironment cb None env = Returned v env'
        /\ steps env' =
             steps env ++
             [LibuvInitialized; DiagnosticsInitialized;
              PreloadModulesLoaded; UserCodeStarted]).
Proof.
  intros Hcjs Hesm. split; [|split].
  - exact (LoadEnvironment_steps cb (Some f) env Hcjs Hesm).
  - intros Hparent. split; [exact Hparent|].
    unfold Worker_Run, Worker_new. simpl. rewrite Hparent.
    exact (LoadEnvironment_steps None (Some f) CreateEnvironment eq_refl eq_refl).
  - intros Hnone.
    destruct (LoadEnvironment_steps cb None env Hcjs Hesm)
      as (v & env' & Hload & Hsteps).
    exists v, env'. split; [exact Hload|].
    rewrite Hsteps. simpl. now rewrite Hnone.
Qed.

(** C7.  The flag [hasEmbedderPreload] in the embedder options is true if
    and only if a preload function is registered on the environment when
    the options are queried, and false if and only if none is; in
    particular it follows [set_embedder_preload]. *)
Theorem hasEmbedderPreload_reflects_hook (env : Environment)
    (earlier : option (gmap string Value)) (throws : bool)
    (options : gmap string Value) :
  GetEmbedderOptions env earlier throws = Some options ->
  (options !! "hasEmbedderPreload" = Some (Boolean true)
   <-> exists f, embedder_preload env = Some f)
  /\ (options !! "hasEmbedderPreload" = Some (Boolean false)
      <-> embedder_preload env = None)
  /\ (forall (fn : EmbedderPreloadCallback) (ret : gmap string Value),
        GetEmbedderOptions (set_embedder_preload fn env) (Some ret) false
        = Some (<["hasEmbedderPreload" :=
                    Boolean (match fn with Some _ => true | None => false end)]>
                  ret)).
Proof.
  intros Hopt. apply GetEmbedderOptions_flag in Hopt. rewrite Hopt.
  split; [|split].
  - destruct (embedder_preload env) as [f|].
    + rewrite bool_decide_eq_true_2 by discriminate. split; eauto.
    + rewrite bool_decide_eq_false_2 by congruence.
      split; [discriminate|]. intros [f Hf]. discriminate.
  - destruct (embedder_preload env) as [f|].
    + rewrite bool_decide_eq_true_2 by discriminate. split; discriminate.
    + rewrite bool_decide_eq_false_2 by congruence. split; reflexivity.
  - intros fn ret. unfold GetEmbedderOptions, Object_Set. simpl.
    destruct fn as [f|].
    + now rewrite bool_decide_eq_true_2 by discriminate.
    + now rewrite bool_decide_eq_false_2 by congruence.
Qed.

End NodeProperties.

(* ===================================================================== *)
(** * Properties of the WebAssembly trap handler flag                     *)
(* ===================================================================== *)

Module WasmProperties.
Import Wasm.

Local Open Scope Z_scope.

(** The mask test of [PlatformInit] reads bit 15 of the flags. *)
Lemma flag_test_is_bit_15 (flags : Z) :
  (Z.land flags kNoEnableWasmTrapHandler =? 0) = negb (Z.testbit flags 15).
Proof.
  unfold kNoEnableWasmTrapHandler.
  destruct (Z.testbit flags 15) eqn:Hbit; simpl.
  - apply Z.eqb_neq. intros Hland.
    apply (f_equal (fun z => Z.testbit z 15)) in Hland.
    rewrite Z.land_spec, Hbit in Hland. vm_compute in Hland. discriminate.
  - apply Z.eqb_eq. apply Z.bits_inj'. intros n Hn.
    rewrite Z.land_spec, Z.bits_0.
    destruct (Z.eq_dec n 15) as [->|Hne].
    + now rewrite Hbit.
    + rewrite Z.shiftl_1_l, Z.pow2_bits_false by congruence.
      apply andb_false_r.
Qed.



End WasmProperties.

(* ===================================================================== *)
(** * Properties of the accessibility page handlers                       *)
(* ===================================================================== *)

Module AccessibilityProperties.
Import Accessibility.

(** C9.  The patched handlers of the accessibility page use and report the
    fixed "blink" API type: the type handed to the tree dump is [kBlink],
    the string the request callback works with is "blink", and neither is
    read from the profile's preferences, so the data and the tree are the
    same whatever the preferences hold.  Setting a global string, the API
    type included, writes no preference.  The browsers list is always
    empty, whatever browser windows are open, and that is the list stored
    in the data under the browsers field. *)
Theorem accessibility_page_ignores_profile (p : Page)
    (profile other : PrefService) :
  pref_api_type = "blink"
  /\ api_type p profile = kBlink
  /\ RequestWebContentsTree p profile = DumpAccessibilityTree p kBlink
  /\ HandleAccessibilityRequestCallback p profile
     = HandleAccessibilityRequestCallback p other
  /\ HandleAccessibilityRequestCallback p profile
     = widget_fields p
         (<[kBrowsersField p := ListValue []]>
            (<[kPagesField p := ListValue (page_list p)]>
               (api_type_fields p "blink" (mode_fields p ∅))))
  /\ (forall string_name value : string,
        SetGlobalString p string_name value profile = profile)
  /\ browser_list p = []
  /\ ((forall data : gmap string Value,
         widget_fields p data !! kBrowsersField p = data !! kBrowsersField p) ->
      HandleAccessibilityRequestCallback p profile !! kBrowsersField p
      = Some (ListValue [])).
Proof.
  repeat split; try reflexivity.
  - intros string_name value. unfold SetGlobalString.
    now destruct (bool_decide (string_name = kApiTypeField p)).
  - intros Hframe. unfold HandleAccessibilityRequestCallback.
    cbv zeta. rewrite Hframe. apply lookup_insert_eq.
Qed.

End AccessibilityProperties.

(* ===================================================================== *)
(** * The properties at concrete inputs                                   *)
(* ===================================================================== *)

Module Instances.
Import Media MediaExamples MediaProperties.

(** C2 as the specification states it fails.  A request for a microphone
    alone, on a host whose only capture device is a webcam, from a live
    frame and declined by the session: no device of the requested kind
    exists, yet the request is accepted and the callback runs with OK and
    an empty device list, not with NO_HARDWARE. *)
Lemma microphone_request_on_webcam_only_host :
  let h := example_host [] [webcam] false in
  let request :=
    request_for MEDIA_GENERATE_STREAM DEVICE_AUDIO_CAPTURE NO_SERVICE "" "" 1 in
  let controller := Create request (Some 0) in
  is_tab_or_desktop_capture request = false
  /\ FromID h (render_process_id request) (render_frame_id request) = Some 7
  /\ delegated h request = false
  /\ microphone_requested_ controller = true
  /\ webcam_requested_ controller = false
  /\ GetAudioCaptureDevices h = []
  /\ TakeAction h controller [] = Returned (moved_from controller) [Ran 0 [] OK]
  /\ TakeAction h controller []
     <> Returned (moved_from controller) [Ran 0 [] NO_HARDWARE].
Proof. vm_compute. repeat split; discriminate. Qed.



Lemma no_hardware_when_no_device_at_all_witness :
  let h := example_host [] [] false in
  let request :=
    request_for MEDIA_GENERATE_STREAM DEVICE_AUDIO_CAPTURE DEVICE_VIDEO_CAPTURE
      "" "" 1 in
  TakeAction h (Create request (Some 3)) []
  = Returned (moved_from (Create request (Some 3))) [Ran 3 [] NO_HARDWARE].
Proof.
  intros h request.
  apply (no_hardware_when_no_device_at_all h request 3 [] 7); reflexivity.
Defined.

Lemma resolutions_are_grants_or_empty_failures_witness :
  let h := example_host [microphone] [] false in
  let request :=
    request_for MEDIA_DEVICE_ACCESS DEVICE_AUDIO_CAPTURE NO_SERVICE "" "" 1 in
  exists fired,
    final_state (lifetime h request (Some 2) []) = fired
    /\ forall c devices result,
        Ran c devices result ∈ fired ->
        result = OK \/ devices = [].
Proof.
  intros h request.
  destruct (resolutions_are_grants_or_empty_failures h request 2 [])
    as (_ & _ & _ & fired & Hfinal & Hshape).
  exists fired. split; [exact Hfinal|].
  intros c devices result Hin.
  destruct (Hshape c devices result Hin) as [_ [[Hok _] | [Hempty _]]]; auto.
Defined.

Lemma desktop_video_target_witness :
  let h := example_host [] [] false in
  let request :=
    request_for MEDIA_GENERATE_STREAM NO_SERVICE GUM_DESKTOP_VIDEO_CAPTURE
      "" "" 9 in
  video_type request = GUM_DESKTOP_VIDEO_CAPTURE
  /\ exists others,
      TakeAction h (Create request (Some 1)) [] =
        Returned (moved_from (Create request (Some 1)))
          [Ran 1 (others ++ [mkDevice GUM_DESKTOP_VIDEO_CAPTURE
                               (ToString h (mkDesktopMediaID TYPE_SCREEN (-1)))
                               "Screen"]) OK].
Proof.
  intros h request. split; [reflexivity|].
  destruct (desktop_video_target h request 1 [] eq_refl)
    as (others & Htake & _ & Hsentinel & _).
  exists others. rewrite <- (Hsentinel eq_refl). exact Htake.
Defined.

Lemma pepper_falls_back_to_first_available_witness :
  let h := example_host [microphone; headset] [webcam] false in
  let request :=
    request_for MEDIA_OPEN_DEVICE_PEPPER_ONLY DEVICE_AUDIO_CAPTURE NO_SERVICE
      "unplugged" "" 1 in
  Accept h (Create request (Some 4)) []
  = Returned (moved_from (Create request (Some 4))) [Ran 4 [microphone] OK].
Proof.
  intros h request.
  destruct (pepper_falls_back_to_first_available h request 4 []
              microphone [headset] eq_refl) as [Haudio _].
  apply Haudio; [reflexivity | | reflexivity].
  repeat constructor; discriminate.
Defined.

Lemma dead_frame_resolved_by_destructor_witness :
  let h := example_host [microphone] [webcam] false in
  let request :=
    request_for MEDIA_GENERATE_STREAM DEVICE_AUDIO_CAPTURE NO_SERVICE "" "" 2 in
  TakeAction h (Create request (Some 6)) [] = Returned (Create request (Some 6)) []
  /\ lifetime h request (Some 6) []
     = Returned tt [Ran 6 [] FAILED_DUE_TO_SHUTDOWN].
Proof.
  intros h request.
  destruct (dead_frame_resolved_by_destructor h request 6 [])
    as (Htake & _ & Hlife); [reflexivity | reflexivity |].
  split; [exact Htake | exact Hlife].
Defined.

Lemma embedder_preload_runs_once_before_user_code_witness :
  let parent := Node.set_embedder_preload (Some Node.test_preload)
                  Node.CreateEnvironment in
  (exists v env',
      Node.LoadEnvironment (Some Node.test_main_script) (Some Node.test_preload)
        Node.CreateEnvironment = Returned v env'
      /\ Node.steps env' =
           [Node.LibuvInitialized; Node.DiagnosticsInitialized;
            Node.EmbedderPreloadCalled 1 (Node.Object "process")
              (Node.Function "require");
            Node.PreloadModulesLoaded; Node.UserCodeStarted])
  /\ (exists v env',
        Node.Worker_Run (Node.Worker_new parent) = Returned v env'
        /\ Node.steps env' =
             [Node.LibuvInitialized; Node.DiagnosticsInitialized;
              Node.EmbedderPreloadCalled 1 (Node.Object "process")
                (Node.Function "require");
              Node.PreloadModulesLoaded; Node.UserCodeStarted]).
Proof.
  intros parent.
  destruct (NodeProperties.embedder_preload_runs_once_before_user_code
              (Some Node.test_main_script) Node.test_preload
              Node.CreateEnvironment parent eq_refl eq_refl)
    as (Hmain & Hworker & _).
  split; [exact Hmain|].
  destruct (Hworker eq_refl) as [_ Hrun]. exact Hrun.
Defined.

Lemma hasEmbedderPreload_reflects_hook_witness :
  let env := Node.set_embedder_preload (Some Node.test_preload)
               Node.CreateEnvironment in
  let options : gmap string Node.Value :=
    <["hasEmbedderPreload" := Node.Boolean true]> ∅ in
  Node.GetEmbedderOptions env (Some ∅) false = Some options
  /\ (options !! "hasEmbedderPreload" = Some (Node.Boolean true)
      <-> exists f, Node.embedder_preload env = Some f).
Proof.
  intros env options.
  assert (Hopt : Node.GetEmbedderOptions env (Some ∅) false = Some options)
    by reflexivity.
  split; [exact Hopt|].
  exact (proj1 (NodeProperties.hasEmbedderPreload_reflects_hook
                  env (Some ∅) false options Hopt)).
Defined.



Lemma accessibility_page_ignores_profile_witness :
  Accessibility.HandleAccessibilityRequestCallback Accessibility.example_page
    Accessibility.example_profile !! "browsers"
  = Some (Accessibility.ListValue [])
  /\ Accessibility.RequestWebContentsTree Accessibility.example_page
       Accessibility.example_profile = "blink tree"
  /\ Accessibility.SetGlobalString Accessibility.example_page "apiType" "uia"
       (Accessibility.mkPrefs ∅) = Accessibility.mkPrefs ∅.
Proof.
  destruct (AccessibilityProperties.accessibility_page_ignores_profile
              Accessibility.example_page Accessibility.example_profile
              (Accessibility.mkPrefs ∅))
    as (_ & _ & Htree & _ & _ & _ & _ & Hbrowsers).
  split; [|split].
  - apply Hbrowsers. intros data. now apply lookup_insert_ne.
  - exact Htree.
  - destruct (AccessibilityProperties.accessibility_page_ignores_profile
                Accessibility.example_page (Accessibility.mkPrefs ∅)
                Accessibility.example_profile)
      as (_ & _ & _ & _ & _ & Hset & _).
    exact (Hset "apiType" "uia").
Defined.

End Instances.

(* ===================================================================== *)
(** * Further properties of the media stream device request broker        *)
(* ===================================================================== *)

Module MediaFacts.
Import Media MediaClients MediaProperties.

(** ** Tab and desktop capture *)

Lemma synthesized_devices_empty (h : Host) (request : MediaStreamRequest) :
  is_tab_or_desktop_capture request = false ->
  synthesized_devices h request = [].
Proof.
  unfold is_tab_or_desktop_capture, synthesized_devices. intros Hcap.
  repeat case_bool_decide; simpl in *; try discriminate; reflexivity.
Qed.

(** X1.  For a tab or desktop capture request [TakeAction] looks neither at
    the render frame, nor at the session, nor at the capture devices: two
    hosts that agree on [DesktopMediaID::Parse] and [ToString] resolve it
    in the same way, with the synthesized list and OK. *)
Theorem capture_resolution_ignores_host (h h' : Host)
    (request : MediaStreamRequest) (cb : nat) (t : Trace) :
  is_tab_or_desktop_capture request = true ->
  (forall s, Parse h s = Parse h' s) ->
  (forall d, ToString h d = ToString h' d) ->
  TakeAction h (Create request (Some cb)) t
  = TakeAction h' (Create request (Some cb)) t
  /\ TakeAction h (Create request (Some cb)) t
     = Returned (moved_from (Create request (Some cb)))
         (t ++ [Ran cb (synthesized_devices h request) OK]).
Proof.
  intros Hcap HParse HToString.
  rewrite (TakeAction_capture h request cb t Hcap).
  rewrite (TakeAction_capture h' request cb t Hcap).
  split; [|reflexivity].
  unfold synthesized_devices, screen_id.
  now rewrite HToString, HParse.
Qed.

(** X2.  The list synthesized for tab and desktop capture holds at most two
    descriptors, and each one is a tab or desktop descriptor of exactly the
    audio type or the video type of the request: a camera or microphone
    asked for alongside is never granted on this path. *)
Theorem synthesized_devices_shape (h : Host) (request : MediaStreamRequest) :
  length (synthesized_devices h request) <= 2
  /\ Forall
       (fun d =>
          (type d = audio_type request
           /\ (type d = GUM_TAB_AUDIO_CAPTURE
               \/ type d = GUM_DESKTOP_AUDIO_CAPTURE))
          \/ (type d = video_type request
              /\ (type d = GUM_TAB_VIDEO_CAPTURE
                  \/ type d = GUM_DESKTOP_VIDEO_CAPTURE)))
       (synthesized_devices h request).
Proof.
  unfold synthesized_devices.
  repeat case_bool_decide; simpl; try congruence;
    (split; [lia|]);
    repeat match goal with
           | |- Forall _ (_ :: _) => constructor
           | |- Forall _ [] => constructor
           end; simpl;
    first [ left; split; [congruence | tauto]
          | right; split; [congruence | tauto] ].
Qed.

(** X3.  [HandleUserMediaRequest] resolves with NO_HARDWARE, and then with
    an empty list, exactly for a request that is neither tab nor desktop
    capture. *)
Theorem HandleUserMediaRequest_no_hardware_iff (h : Host)
    (c : MediaStreamDevicesController) (cb : nat) (t : Trace) :
  callback_ c = Some cb ->
  (HandleUserMediaRequest h c t
     = Returned (moved_from c) (t ++ [Ran cb [] NO_HARDWARE])
   <-> is_tab_or_desktop_capture (request_ c) = false)
  /\ (forall devices,
        HandleUserMediaRequest h c t
          = Returned (moved_from c) (t ++ [Ran cb devices NO_HARDWARE]) ->
        devices = []).
Proof.
  intros Hcb. rewrite (HandleUserMediaRequest_runs h c cb t Hcb). split.
  - split.
    + intros Heq. injection Heq as Heq. apply app_inv_head in Heq.
      injection Heq as Hdevices _.
      destruct (is_tab_or_desktop_capture (request_ c)) eqn:Hcap; [|reflexivity].
      now apply (synthesized_devices_nonempty h) in Hcap.
    + intros Hcap. rewrite (synthesized_devices_empty h _ Hcap).
      reflexivity.
  - intros devices Heq. injection Heq as Heq. apply app_inv_head in Heq.
    injection Heq as Hdevices Hresult.
    case_bool_decide as Hempty; [congruence | discriminate].
Qed.

(** ** Device requests *)

Lemma HasAnyAvailableDevice_false (h : Host) :
  HasAnyAvailableDevice h = false <->
  GetAudioCaptureDevices h = [] /\ GetVideoCaptureDevices h = [].
Proof.
  unfold HasAnyAvailableDevice. rewrite negb_false_iff, andb_true_iff.
  now rewrite !bool_decide_eq_true.
Qed.

(** X4.  For a device request from a live frame that the session declines,
    [TakeAction] resolves with NO_HARDWARE exactly when the host has no
    capture device of either kind: any device, of whatever kind, is enough
    for the request not to be denied. *)
Theorem no_hardware_iff_no_device (h : Host) (request : MediaStreamRequest)
    (cb : nat) (t : Trace) (rfh : RenderFrameHost) :
  is_tab_or_desktop_capture request = false ->
  FromID h (render_process_id request) (render_frame_id request) = Some rfh ->
  accepts_responsibility
    (FromBrowserContext h (GetBrowserContext h rfh)) request = false ->
  ((exists c' devices,
       TakeAction h (Create request (Some cb)) t
       = Returned c' (t ++ [Ran cb devices NO_HARDWARE]))
   <-> GetAudioCaptureDevices h = [] /\ GetVideoCaptureDevices h = []).
Proof.
  intros Hcap Hrfh Hacc.
  rewrite (TakeAction_declined h request cb t rfh Hcap Hrfh Hacc).
  rewrite <- HasAnyAvailableDevice_false.
  destruct (HasAnyAvailableDevice h); split.
  - intros (c' & devices & Heq). exfalso.
    destruct (default_devices_cases h (Create request (Some cb)) t)
      as [[granted Hdev] | (Hdev & _)].
    + rewrite (Accept_runs h (Create request (Some cb)) cb granted t
                 eq_refl Hdev) in Heq.
      injection Heq as _ Heq. apply app_inv_head in Heq. discriminate.
    + rewrite (Accept_unreachable h _ t Hdev) in Heq. discriminate.
  - discriminate.
  - reflexivity.
  - intros _. eexists _, _.
    now apply (Deny_runs (Create request (Some cb)) cb NO_HARDWARE t).
Qed.

(** X5.  The session is asked before the hardware is looked at: when it
    accepts responsibility the controller never runs the callback, neither
    in [TakeAction] nor in its destructor, whatever the request type (the
    update type included) and whether or not the host has any device. *)
Theorem delegated_request_is_never_run (h : Host)
    (request : MediaStreamRequest) (cb : nat) (t : Trace) :
  delegated h request = true ->
  lifetime h request (Some cb) t
  = Returned tt (t ++ [MovedToSession cb request]).
Proof.
  intros Hdel. unfold lifetime.
  rewrite (bind_Returned _ _ _ _ _ (TakeAction_delegated h request cb t Hdel)).
  now apply Destroy_fired.
Qed.

(** ** [Accept] for a Pepper open-device request *)

Lemma FindDeviceWithId_found (devices : MediaStreamDevices)
    (device_id : string) (d : MediaStreamDevice) :
  FindDeviceWithId devices device_id = Some d ->
  d ∈ devices /\ id d = device_id.
Proof.
  unfold FindDeviceWithId. induction devices as [|d' devices IH]; simpl.
  - discriminate.
  - case_bool_decide as Hid.
    + intros [= ->]. split; [left|exact Hid].
    + intros Hfind. destruct (IH Hfind) as [Hin Heq].
      split; [now right | exact Heq].
Qed.

Lemma FindDeviceWithId_first (before after : MediaStreamDevices)
    (d : MediaStreamDevice) (device_id : string) :
  Forall (fun d' => id d' <> device_id) before ->
  id d = device_id ->
  FindDeviceWithId (before ++ d :: after) device_id = Some d.
Proof.
  unfold FindDeviceWithId. intros Hbefore Hid.
  induction Hbefore as [|d' before Hd' _ IH]; simpl.
  - now rewrite bool_decide_eq_true_2.
  - now rewrite bool_decide_eq_false_2.
Qed.

Lemma head_elem_of (devices : MediaStreamDevices) (d : MediaStreamDevice) :
  head devices = Some d -> d ∈ devices.
Proof. destruct devices; [discriminate|]. intros [= ->]. left. Qed.

Lemma Accept_pepper (h : Host) (request : MediaStreamRequest) (cb : nat)
    (t : Trace) :
  request_type request = MEDIA_OPEN_DEVICE_PEPPER_ONLY ->
  Accept h (Create request (Some cb)) t
  = Returned (moved_from (Create request (Some cb)))
      (t ++ [Ran cb (push_back_if [] (pepper_device h request)) OK]).
Proof.
  intros Hpepper. apply Accept_runs; [reflexivity|].
  unfold default_devices, Create; simpl. rewrite Hpepper.
  rewrite (bool_decide_eq_true_2 (MEDIA_OPEN_DEVICE_PEPPER_ONLY = _) eq_refl).
  now rewrite orb_true_r.
Qed.

(** X6.  An accepted Pepper open-device request is granted at most one
    device, and a granted device is always one of the host's known devices
    of the kind the request is served for: an audio capture device when the
    audio type is device audio capture, a video capture device otherwise. *)
Theorem pepper_grants_at_most_one_known_device (h : Host)
    (request : MediaStreamRequest) (cb : nat) (t : Trace) :
  request_type request = MEDIA_OPEN_DEVICE_PEPPER_ONLY ->
  exists devices,
    Accept h (Create request (Some cb)) t
    = Returned (moved_from (Create request (Some cb)))
        (t ++ [Ran cb devices OK])
    /\ length devices <= 1
    /\ (audio_type request = DEVICE_AUDIO_CAPTURE ->
        Forall (fun d => d ∈ GetAudioCaptureDevices h) devices)
    /\ (audio_type request <> DEVICE_AUDIO_CAPTURE ->
        Forall (fun d => video_type request = DEVICE_VIDEO_CAPTURE
                         /\ d ∈ GetVideoCaptureDevices h) devices).
Proof.
  intros Hpepper. eexists. split; [now apply Accept_pepper|].
  unfold pepper_device, GetRequestedAudioDevice, GetRequestedVideoDevice,
    GetFirstAvailableAudioDevice, GetFirstAvailableVideoDevice.
  case_bool_decide as Haudio; [|case_bool_decide as Hvideo].
  - destruct (FindDeviceWithId _ _) as [d|] eqn:Hfind.
    + apply FindDeviceWithId_found in Hfind as [Hin _]. simpl.
      split; [lia|]. split; [|contradiction]. intros _. now repeat constructor.
    + destruct (head (GetAudioCaptureDevices h)) as [d|] eqn:Hhead; simpl.
      * apply head_elem_of in Hhead.
        split; [lia|]. split; [|contradiction]. intros _. now repeat constructor.
      * split; [lia|]. split; intros _; constructor.
  - destruct (FindDeviceWithId _ _) as [d|] eqn:Hfind.
    + apply FindDeviceWithId_found in Hfind as [Hin _]. simpl.
      split; [lia|]. split; [contradiction|]. intros _. now repeat constructor.
    + destruct (head (GetVideoCaptureDevices h)) as [d|] eqn:Hhead; simpl.
      * apply head_elem_of in Hhead.
        split; [lia|]. split; [contradiction|]. intros _. now repeat constructor.
      * split; [lia|]. split; intros _; constructor.
  - simpl. split; [lia|]. split; intros _; constructor.
Qed.

(** X7.  An accepted Pepper open-device request that names a known device
    is granted that device: the first device of the list carrying the
    requested id, not the first available one. *)
Theorem pepper_grants_requested_device (h : Host)
    (request : MediaStreamRequest) (cb : nat) (t : Trace)
    (before after : MediaStreamDevices) (d : MediaStreamDevice) :
  request_type request = MEDIA_OPEN_DEVICE_PEPPER_ONLY ->
  (audio_type request = DEVICE_AUDIO_CAPTURE ->
   GetAudioCaptureDevices h = before ++ d :: after ->
   Forall (fun d' => id d' <> requested_audio_device_id request) before ->
   id d = requested_audio_device_id request ->
   Accept h (Create request (Some cb)) t
   = Returned (moved_from (Create request (Some cb)))
       (t ++ [Ran cb [d] OK]))
  /\ (audio_type request <> DEVICE_AUDIO_CAPTURE ->
      video_type request = DEVICE_VIDEO_CAPTURE ->
      GetVideoCaptureDevices h = before ++ d :: after ->
      Forall (fun d' => id d' <> requested_video_device_id request) before ->
      id d = requested_video_device_id request ->
      Accept h (Create request (Some cb)) t
      = Returned (moved_from (Create request (Some cb)))
          (t ++ [Ran cb [d] OK])).
Proof.
  intros Hpepper. split.
  - intros Haudio Hlist Hbefore Hid.
    rewrite (Accept_pepper h request cb t Hpepper).
    unfold pepper_device, GetRequestedAudioDevice.
    rewrite bool_decide_eq_true_2 by exact Haudio.
    now rewrite Hlist, (FindDeviceWithId_first before after d _ Hbefore Hid).
  - intros Hnot_audio Hvideo Hlist Hbefore Hid.
    rewrite (Accept_pepper h request cb t Hpepper).
    unfold pepper_device, GetRequestedVideoDevice.
    rewrite bool_decide_eq_false_2 by exact Hnot_audio.
    rewrite bool_decide_eq_true_2 by exact Hvideo.
    now rewrite Hlist, (FindDeviceWithId_first before after d _ Hbefore Hid).
Qed.

(** X8.  A Pepper open-device request never falls back across kinds: an
    audio request on a host without audio capture devices is granted
    nothing, whatever video devices there are, and a request whose audio and
    video types are both something else than device capture is granted
    nothing either.  Both still resolve with OK. *)
Theorem pepper_never_crosses_kinds (h : Host) (request : MediaStreamRequest)
    (cb : nat) (t : Trace) :
  request_type request = MEDIA_OPEN_DEVICE_PEPPER_ONLY ->
  (audio_type request = DEVICE_AUDIO_CAPTURE /\ GetAudioCaptureDevices h = []
   \/ audio_type request <> DEVICE_AUDIO_CAPTURE
      /\ video_type request <> DEVICE_VIDEO_CAPTURE) ->
  Accept h (Create request (Some cb)) t
  = Returned (moved_from (Create request (Some cb))) (t ++ [Ran cb [] OK]).
Proof.
  intros Hpepper Hkind.
  rewrite (Accept_pepper h request cb t Hpepper).
  unfold pepper_device, GetRequestedAudioDevice, GetFirstAvailableAudioDevice.
  destruct Hkind as [[Haudio Hnone] | [Haudio Hvideo]].
  - rewrite bool_decide_eq_true_2 by exact Haudio. now rewrite Hnone.
  - rewrite bool_decide_eq_false_2 by exact Haudio.
    now rewrite bool_decide_eq_false_2 by exact Hvideo.
Qed.

(** ** [Accept] for a generate-stream request *)

Lemma empty_false (s : string) : s <> "" -> empty s = false.
Proof. destruct s; [contradiction|reflexivity]. Qed.

Lemma requested_kind (request : MediaStreamRequest) :
  audio_type request = DEVICE_AUDIO_CAPTURE
  \/ video_type request = DEVICE_VIDEO_CAPTURE ->
  microphone_requested_ (Create request (Some 0))
  || webcam_requested_ (Create request (Some 0)) = true.
Proof.
  intros [Hkind | Hkind]; simpl; rewrite Hkind;
    rewrite (bool_decide_eq_true_2 (_ = _) eq_refl); simpl;
    now rewrite ?orb_true_r.
Qed.

(** X9.  In an accepted generate-stream request a device named by id and
    known to the host is granted as named, audio before video, even for a
    kind the request did not ask for; when both ids name known devices the
    default devices of the host are not consulted at all. *)
Theorem generate_stream_grants_named_devices (h : Host)
    (request : MediaStreamRequest) (cb : nat) (t : Trace)
    (audio_device video_device : MediaStreamDevice) :
  request_type request = MEDIA_GENERATE_STREAM ->
  audio_type request = DEVICE_AUDIO_CAPTURE
  \/ video_type request = DEVICE_VIDEO_CAPTURE ->
  requested_audio_device_id request <> "" ->
  GetRequestedAudioDevice h (requested_audio_device_id request)
  = Some audio_device ->
  requested_video_device_id request <> "" ->
  GetRequestedVideoDevice h (requested_video_device_id request)
  = Some video_device ->
  Accept h (Create request (Some cb)) t
  = Returned (moved_from (Create request (Some cb)))
      (t ++ [Ran cb [audio_device; video_device] OK]).
Proof.
  intros Hgenerate Hkind Haid Haudio Hvid Hvideo.
  apply Accept_runs; [reflexivity|].
  unfold default_devices.
  change (microphone_requested_ (Create request (Some cb)))
    with (microphone_requested_ (Create request (Some 0))).
  change (webcam_requested_ (Create request (Some cb)))
    with (webcam_requested_ (Create request (Some 0))).
  rewrite (requested_kind request Hkind).
  change (request_type (request_ (Create request (Some cb))))
    with (request_type request).
  rewrite Hgenerate. unfold generate_stream_devices.
  change (request_ (Create request (Some cb))) with request.
  rewrite (empty_false _ Haid), (empty_false _ Hvid), Haudio, Hvideo.
  reflexivity.
Qed.

(** X10.  In an accepted generate-stream request for a microphone and a
    webcam, the default devices of the host are asked for exactly the kinds
    that no id resolved: for both when each id is empty or unknown, and for
    video alone, after the named microphone, when only the audio id names a
    known device. *)
Theorem generate_stream_defaults_for_unresolved_kinds (h : Host)
    (request : MediaStreamRequest) (cb : nat) (t : Trace) :
  request_type request = MEDIA_GENERATE_STREAM ->
  audio_type request = DEVICE_AUDIO_CAPTURE ->
  video_type request = DEVICE_VIDEO_CAPTURE ->
  requested_video_device_id request = ""
  \/ GetRequestedVideoDevice h (requested_video_device_id request) = None ->
  (requested_audio_device_id request = ""
   \/ GetRequestedAudioDevice h (requested_audio_device_id request) = None ->
   Accept h (Create request (Some cb)) t
   = Returned (moved_from (Create request (Some cb)))
       (t ++ [Ran cb (GetDefaultDevices h true true []) OK]))
  /\ (forall audio_device,
        requested_audio_device_id request <> "" ->
        GetRequestedAudioDevice h (requested_audio_device_id request)
        = Some audio_device ->
        Accept h (Create request (Some cb)) t
        = Returned (moved_from (Create request (Some cb)))
            (t ++ [Ran cb (GetDefaultDevices h false true [audio_device]) OK])).
Proof.
  intros Hgenerate Haudio_type Hvideo_type Hvideo.
  assert (Hshape : forall devices,
             generate_stream_devices h (Create request (Some cb)) = devices ->
             Accept h (Create request (Some cb)) t
             = Returned (moved_from (Create request (Some cb)))
                 (t ++ [Ran cb devices OK])).
  { intros devices <-. apply Accept_runs; [reflexivity|].
    unfold default_devices, Create; simpl.
    rewrite Hgenerate, Haudio_type.
    now rewrite (bool_decide_eq_true_2 (DEVICE_AUDIO_CAPTURE = _) eq_refl). }
  assert (Hmic : microphone_requested_ (Create request (Some cb)) = true).
  { simpl. rewrite Haudio_type.
    now rewrite (bool_decide_eq_true_2 (DEVICE_AUDIO_CAPTURE = _) eq_refl). }
  assert (Hcam : webcam_requested_ (Create request (Some cb)) = true).
  { simpl. rewrite Hvideo_type.
    now rewrite (bool_decide_eq_true_2 (DEVICE_VIDEO_CAPTURE = _) eq_refl). }
  split.
  - intros Haudio. apply Hshape. unfold generate_stream_devices.
    rewrite Hmic, Hcam.
    change (request_ (Create request (Some cb))) with request.
    destruct Haudio as [-> | ->], Hvideo as [-> | ->]; simpl;
      repeat match goal with
             | |- context [empty ?s] => destruct (empty s)
             end; reflexivity.
  - intros audio_device Haid Haudio. apply Hshape.
    unfold generate_stream_devices. rewrite Hmic, Hcam.
    change (request_ (Create request (Some cb))) with request.
    rewrite (empty_false _ Haid), Haudio.
    destruct Hvideo as [-> | ->]; simpl;
      repeat match goal with
             | |- context [empty ?s] => destruct (empty s)
             end; reflexivity.
Qed.

(** X11.  A request that asks neither for a microphone nor for a webcam is
    accepted with an empty device list and OK, whatever its request type:
    the update type does not reach the unreachable branch then. *)
Theorem accept_without_requested_kind (h : Host) (request : MediaStreamRequest)
    (cb : nat) (t : Trace) :
  audio_type request <> DEVICE_AUDIO_CAPTURE ->
  video_type request <> DEVICE_VIDEO_CAPTURE ->
  request_type request <> MEDIA_OPEN_DEVICE_PEPPER_ONLY ->
  Accept h (Create request (Some cb)) t
  = Returned (moved_from (Create request (Some cb))) (t ++ [Ran cb [] OK]).
Proof.
  intros Haudio Hvideo Hpepper. apply Accept_runs; [reflexivity|].
  unfold default_devices, Create; simpl.
  rewrite (bool_decide_eq_false_2 _ Haudio), (bool_decide_eq_false_2 _ Hvideo),
    (bool_decide_eq_false_2 _ Hpepper).
  reflexivity.
Qed.

(** ** Any sequence of calls *)

Section Calls.
Variable h : Host.
Variable cb : nat.

(** A method called on a controller that still holds the callback dies
    before touching it, returns still holding it, or returns having
    consumed it in one event. *)
Lemma perform_held (call : Call) (c : MediaStreamDevicesController) (t : Trace) :
  callback_ c = Some cb ->
  perform h call c t = Fatal t
  \/ (exists c', perform h call c t = Returned c' t /\ callback_ c' = Some cb)
  \/ (exists c' e,
        perform h call c t = Returned c' (t ++ [e])
        /\ callback_ c' = None /\ event_callback e = cb).
Proof.
  intros Hcb.
  assert (Haccept : forall c0, callback_ c0 = Some cb ->
            Accept h c0 t = Fatal t
            \/ exists c' e, Accept h c0 t = Returned c' (t ++ [e])
                            /\ callback_ c' = None /\ event_callback e = cb).
  { intros c0 Hcb0.
    destruct (default_devices_cases h c0 t) as [[devices Hdev] | (Hdev & _)].
    - right. rewrite (Accept_runs h c0 cb devices t Hcb0 Hdev). eauto.
    - left. now apply Accept_unreachable. }
  destruct call as [| |result|]; simpl.
  - unfold TakeAction.
    destruct (is_tab_or_desktop_capture (request_ c)).
    + right; right. rewrite (HandleUserMediaRequest_runs h c cb t Hcb). eauto.
    + destruct (FromID h _ _) as [rfh|].
      * cbv zeta.
        destruct (accepts_responsibility
                    (FromBrowserContext h (GetBrowserContext h rfh))
                    (request_ c)) eqn:Hacc.
        -- erewrite bind_Returned
             by (unfold ChooseMediaDevice; rewrite Hacc, Hcb; reflexivity).
           right; right. eexists _, _. split; [reflexivity|]. auto.
        -- erewrite bind_Returned
             by (unfold ChooseMediaDevice; rewrite Hacc; reflexivity).
           rewrite Hcb. cbv beta iota.
           destruct (HasAnyAvailableDevice h).
           ++ destruct (Haccept (with_callback c (Some cb)) eq_refl)
                as [Hfatal | Hran]; auto.
           ++ right; right.
              rewrite (Deny_runs (with_callback c (Some cb)) cb NO_HARDWARE t
                         eq_refl). eauto.
      * right; left. eauto.
  - destruct (Haccept c Hcb) as [Hfatal | Hran]; auto.
  - right; right. rewrite (Deny_runs c cb result t Hcb). eauto.
  - right; right. rewrite (HandleUserMediaRequest_runs h c cb t Hcb). eauto.
Qed.

(** A method called on a controller whose callback is gone never runs
    anything: it dies on the null callback or returns without an event. *)
Lemma perform_spent (call : Call) (c : MediaStreamDevicesController) (t : Trace) :
  callback_ c = None ->
  perform h call c t = Fatal t
  \/ (exists c', perform h call c t = Returned c' t /\ callback_ c' = None).
Proof.
  intros Hcb.
  assert (Haccept : forall c0, callback_ c0 = None -> Accept h c0 t = Fatal t).
  { intros c0 Hcb0. unfold Accept.
    destruct (default_devices_cases h c0 t) as [[devices Hdev] | (Hdev & _)].
    - rewrite (bind_Returned _ _ _ _ _ Hdev). now rewrite Hcb0.
    - now rewrite (bind_Fatal _ _ _ _ Hdev). }
  destruct call as [| |result|]; simpl.
  - unfold TakeAction.
    destruct (is_tab_or_desktop_capture (request_ c)).
    + left. unfold HandleUserMediaRequest. now rewrite Hcb.
    + destruct (FromID h _ _) as [rfh|].
      * cbv zeta.
        destruct (accepts_responsibility
                    (FromBrowserContext h (GetBrowserContext h rfh))
                    (request_ c)) eqn:Hacc.
        -- erewrite bind_Returned
             by (unfold ChooseMediaDevice; rewrite Hacc, Hcb; reflexivity).
           right. eexists. split; [reflexivity|]. reflexivity.
        -- erewrite bind_Returned
             by (unfold ChooseMediaDevice; rewrite Hacc; reflexivity).
           rewrite Hcb. cbv beta iota. left.
           destruct (HasAnyAvailableDevice h).
           ++ now apply Haccept.
           ++ reflexivity.
      * right. eauto.
  - left. now apply Haccept.
  - left. unfold Deny. now rewrite Hcb.
  - left. unfold HandleUserMediaRequest. now rewrite Hcb.
Qed.

Lemma perform_all_spent (calls : list Call) (c : MediaStreamDevicesController)
    (t : Trace) :
  callback_ c = None ->
  perform_all h calls c t = Fatal t
  \/ (exists c', perform_all h calls c t = Returned c' t /\ callback_ c' = None).
Proof.
  revert c. induction calls as [|call calls IH]; intros c Hcb; simpl.
  - right. eauto.
  - destruct (perform_spent call c t Hcb) as [Hfatal | (c' & Hret & Hcb')].
    + left. now apply bind_Fatal.
    + rewrite (bind_Returned _ _ _ _ _ Hret). now apply IH.
Qed.

Lemma perform_all_held (calls : list Call) (c : MediaStreamDevicesController)
    (t : Trace) :
  callback_ c = Some cb ->
  perform_all h calls c t = Fatal t
  \/ (exists c', perform_all h calls c t = Returned c' t
                 /\ callback_ c' = Some cb)
  \/ (exists e,
        event_callback e = cb
        /\ (perform_all h calls c t = Fatal (t ++ [e])
            \/ exists c', perform_all h calls c t = Returned c' (t ++ [e])
                          /\ callback_ c' = None)).
Proof.
  revert c. induction calls as [|call calls IH]; intros c Hcb; simpl.
  - right; left. eauto.
  - destruct (perform_held call c t Hcb)
      as [Hfatal | [(c' & Hret & Hcb') | (c' & e & Hret & Hcb' & He)]].
    + left. now apply bind_Fatal.
    + rewrite (bind_Returned _ _ _ _ _ Hret). now apply IH.
    + rewrite (bind_Returned _ _ _ _ _ Hret). right; right. exists e.
      split; [exact He|].
      destruct (perform_all_spent calls c' (t ++ [e]) Hcb')
        as [Hfatal | (c'' & Hret' & Hcb'')]; eauto.
Qed.

End Calls.

(** X12.  Whatever methods a caller invokes on a controller, in whatever
    order and however often, before destroying it, the completion callback
    is consumed at most once (run by the controller or handed to the
    session), never twice; and when the calls and the destructor all return
    it has been consumed exactly once. *)
Theorem callback_never_consumed_twice (h : Host)
    (request : MediaStreamRequest) (cb : nat) (calls : list Call) (t : Trace) :
  exists events,
    final_state (use h request (Some cb) calls t) = t ++ events
    /\ length events <= 1
    /\ Forall (fun e => event_callback e = cb) events
    /\ (forall t', use h request (Some cb) calls t = Returned tt t' ->
        length events = 1).
Proof.
  unfold use.
  destruct (perform_all_held h cb calls (Create request (Some cb)) t eq_refl)
    as [Hfatal
       | [(c' & Hret & Hcb')
         | (e & He & [Hfatal | (c' & Hret & Hcb')])]].
  - exists []. rewrite (bind_Fatal _ _ _ _ Hfatal). simpl.
    rewrite app_nil_r. repeat split; auto. discriminate.
  - exists [Ran cb [] FAILED_DUE_TO_SHUTDOWN].
    rewrite (bind_Returned _ _ _ _ _ Hret), (Destroy_unfired c' cb _ Hcb').
    simpl. repeat split; auto.
  - exists [e]. rewrite (bind_Fatal _ _ _ _ Hfatal). simpl.
    repeat split; auto.
  - exists [e]. rewrite (bind_Returned _ _ _ _ _ Hret), (Destroy_fired c' _ Hcb').
    simpl. repeat split; auto.
Qed.

End MediaFacts.

(* ===================================================================== *)
(** * Further properties of the embedder preload hook                     *)
(* ===================================================================== *)

Module NodeFacts.
Import Node NodeProperties.

(** With a registered function and an object and a function for arguments,
    all four checks of [RunEmbedderPreload] pass. *)
Lemma RunEmbedderPreload_passes (env : Environment) (f : PreloadFunction)
    (process_obj require_fn : Value) :
  embedder_preload env = Some f ->
  IsObject process_obj = true ->
  IsFunction require_fn = true ->
  exists env',
    RunEmbedderPreload [process_obj; require_fn] env = Returned tt env'
    /\ steps env' =
         steps env
         ++ [EmbedderPreloadCalled (preload_name f) process_obj require_fn]
    /\ process_properties env' = preload_body f (process_properties env)
    /\ embedder_preload env' = Some f
    /\ hasStartedUserCJSExecution env' = hasStartedUserCJSExecution env
    /\ hasStartedUserESMExecution env' = hasStartedUserESMExecution env.
Proof.
  intros Hfn Hobject Hfunction. unfold embedder_preload in Hfn.
  unfold RunEmbedderPreload, mbind, M_bind, bind, gets, embedder_preload.
  rewrite Hfn. simpl. rewrite Hobject, Hfunction. simpl.
  eexists. split; [reflexivity|]. simpl. auto.
Qed.

(** The properties of [process] after [setupUserModules]: as the preload
    function left them. *)
Lemma setupUserModules_properties (env : Environment) (f : PreloadFunction) :
  hasStartedUserCJSExecution env = false ->
  hasStartedUserESMExecution env = false ->
  embedder_preload env = Some f ->
  exists env',
    setupUserModules false env = Returned tt env'
    /\ process_properties env' = preload_body f (process_properties env).
Proof.
  intros Hcjs Hesm Hfn.
  destruct (getEmbedderOptions_returns env) as (options & Hopt & Hflag).
  rewrite Hfn in Hflag.
  unfold setupUserModules.
  erewrite bind_Returned by reflexivity. rewrite Hcjs.
  erewrite bind_Returned by reflexivity.
  erewrite bind_Returned by reflexivity. rewrite Hesm.
  erewrite bind_Returned by reflexivity.
  erewrite bind_Returned by exact Hopt. rewrite Hflag.
  case_bool_decide as Hsome; [|congruence].
  rewrite bool_decide_eq_true_2 by reflexivity.
  destruct (RunEmbedderPreload_passes env f process require Hfn eq_refl eq_refl)
    as (env1 & Hrun & _ & Hproperties & _).
  unfold runEmbedderPreload.
  erewrite bind_Returned by exact Hrun.
  eexists. split; [reflexivity|]. exact Hproperties.
Qed.


(** X14.  [LoadEnvironment] registers a preload function only when it is
    given one: with an empty [preload] a function registered on the
    environment beforehand is kept and is the one the bootstrap calls, and
    with a non-empty [preload] that function replaces it. *)
Theorem LoadEnvironment_keeps_or_replaces_hook (cb : StartExecutionCallback)
    (f g : PreloadFunction) (env : Environment) :
  hasStartedUserCJSExecution env = false ->
  hasStartedUserESMExecution env = false ->
  embedder_preload env = Some g ->
  (exists v env',
      LoadEnvironment cb None env = Returned v env'
      /\ steps env' =
           steps env ++
           [LibuvInitialized; DiagnosticsInitialized;
            EmbedderPreloadCalled (preload_name g) process require;
            PreloadModulesLoaded; UserCodeStarted])
  /\ (exists v env',
        LoadEnvironment cb (Some f) env = Returned v env'
        /\ steps env' =
             steps env ++
             [LibuvInitialized; DiagnosticsInitialized;
              EmbedderPreloadCalled (preload_name f) process require;
              PreloadModulesLoaded; UserCodeStarted]).
Proof.
  intros Hcjs Hesm Hhook. split.
  - destruct (LoadEnvironment_steps cb None env Hcjs Hesm)
      as (v & env' & Hload & Hsteps).
    exists v, env'. split; [exact Hload|].
    rewrite Hsteps. simpl. now rewrite Hhook.
  - exact (LoadEnvironment_steps cb (Some f) env Hcjs Hesm).
Qed.

(** X15.  Once user code has started in an environment, CommonJS or ES
    module, [setupUserModules] dies on its assertion before the embedder
    preload is looked up: the hook is never called after user code, and
    the environment is left untouched. *)
Theorem setupUserModules_after_user_code (forceDefaultLoader : bool)
    (env : Environment) :
  hasStartedUserCJSExecution env = true
  \/ hasStartedUserESMExecution env = true ->
  setupUserModules forceDefaultLoader env = Fatal env.
Proof.
  intros Hstarted. unfold setupUserModules.
  erewrite bind_Returned by reflexivity.
  destruct (hasStartedUserCJSExecution env) eqn:Hcjs.
  - now apply bind_Fatal.
  - erewrite bind_Returned by reflexivity.
    erewrite bind_Returned by reflexivity.
    destruct Hstarted as [Hstarted | Hstarted]; [discriminate|].
    rewrite Hstarted. now apply bind_Fatal.
Qed.

(** X16.  What the preload function does to [process] is what the entry
    point sees: loading an environment with a preload function and a main
    script returns the value the script computes from the properties of
    [process] as the function left them. *)
Theorem preload_effect_visible_to_entry_point
    (main : gmap string Value -> Value) (f : PreloadFunction)
    (env : Environment) :
  hasStartedUserCJSExecution env = false ->
  hasStartedUserESMExecution env = false ->
  exists env',
    LoadEnvironment (Some main) (Some f) env
    = Returned (main (preload_body f (process_properties env))) env'
    /\ process_properties env' = preload_body f (process_properties env).
Proof.
  intros Hcjs Hesm.
  unfold LoadEnvironment.
  erewrite bind_Returned by reflexivity.
  erewrite bind_Returned by reflexivity.
  erewrite bind_Returned by reflexivity.
  match goal with |- context [StartExecution _ ?e] => set (loaded := e) end.
  destruct (setupUserModules_properties loaded f Hcjs Hesm eq_refl)
    as (env1 & Hsetup & Hproperties).
  unfold StartExecution.
  erewrite bind_Returned by exact Hsetup.
  erewrite bind_Returned by reflexivity.
  erewrite bind_Returned by reflexivity.
  erewrite bind_Returned by reflexivity.
  eexists. split.
  - unfold mret, M_ret, ret. simpl. now rewrite Hproperties.
  - simpl. rewrite ?Hproperties. reflexivity.
Qed.

(** X17.  [GetEmbedderOptions] hands back no object exactly when an earlier
    store failed or its own store throws; when it does hand one back, every
    option set earlier under another name is still there unchanged. *)
Theorem GetEmbedderOptions_keeps_earlier_options (env : Environment)
    (earlier : option (gmap string Value)) (throws : bool) :
  (GetEmbedderOptions env earlier throws = None
   <-> earlier = None \/ throws = true)
  /\ (forall (ret options : gmap string Value) (key : string),
        earlier = Some ret ->
        GetEmbedderOptions env earlier throws = Some options ->
        key <> "hasEmbedderPreload" ->
        options !! key = ret !! key).
Proof.
  unfold GetEmbedderOptions, Object_Set. split.
  - destruct earlier as [ret|], throws; simpl; split; auto; try discriminate.
    intros [Hnone | Hthrows]; discriminate.
  - intros ret options key -> Hopt Hkey. simpl in Hopt.
    destruct throws; [discriminate|]. injection Hopt as <-.
    now apply lookup_insert_ne.
Qed.

End NodeFacts.

(* ===================================================================== *)
(** * Further properties of the WebAssembly trap handler flag             *)
(* ===================================================================== *)

Module WasmFacts.
Import Wasm WasmProperties.

Local Open Scope Z_scope.

Lemma PlatformInit_by_bit (compiled_in : bool) (block : Z -> bool)
    (flags : Z) (v8 : V8) :
  PlatformInit compiled_in block flags v8
  = if block flags && compiled_in && negb (Z.testbit flags 15)
    then EnableWebAssemblyTrapHandler false v8
    else Returned tt v8.
Proof.
  unfold PlatformInit. rewrite flag_test_is_bit_15.
  destruct (block flags), compiled_in, (Z.testbit flags 15); reflexivity.
Qed.

(** X18.  Adding kNoEnableWasmTrapHandler to any set of flags with a
    bitwise or suppresses the registration: V8 is left as it was, on every
    build, whatever the other flags are and whether or not an embedder has
    enabled the trap handler before. *)
Theorem flag_added_suppresses_registration (compiled_in : bool)
    (block : Z -> bool) (flags : Z) (v8 : V8) :
  PlatformInit compiled_in block (Z.lor flags kNoEnableWasmTrapHandler) v8
  = Returned tt v8.
Proof.
  rewrite PlatformInit_by_bit.
  assert (Hbit : Z.testbit (Z.lor flags kNoEnableWasmTrapHandler) 15 = true).
  { rewrite Z.lor_spec. unfold kNoEnableWasmTrapHandler.
    rewrite Z.shiftl_1_l, Z.pow2_bits_true by lia. apply orb_true_r. }
  rewrite Hbit. simpl. now rewrite andb_false_r.
Qed.

(** X19.  Two platform initializations in one process, both reaching the
    patched lines on a build with the trap handler: the second one crashes
    exactly when neither sets the flag; when exactly one of them leaves the
    flag clear the trap handler is enabled once, and when both set it the
    handler is never enabled. *)
Theorem PlatformInit_twice (block : Z -> bool) (first second : Z) :
  block first = true ->
  block second = true ->
  (PlatformInit true block first ≫= fun _ => PlatformInit true block second)
    (mkV8 [])
  = match Z.testbit first 15, Z.testbit second 15 with
    | false, false => Fatal (mkV8 [false])
    | true, true => Returned tt (mkV8 [])
    | _, _ => Returned tt (mkV8 [false])
    end.
Proof.
  intros Hfirst Hsecond. unfold mbind, M_bind, bind.
  rewrite PlatformInit_by_bit, Hfirst.
  destruct (Z.testbit first 15); cbn [andb negb].
  - rewrite PlatformInit_by_bit, Hsecond.
    destruct (Z.testbit second 15); reflexivity.
  - unfold EnableWebAssemblyTrapHandler at 1.
    cbn [EnableWebAssemblyTrapHandler_calls].
    rewrite PlatformInit_by_bit, Hsecond.
    destruct (Z.testbit second 15); reflexivity.
Qed.

(** X20.  Of the initialization flags the patched lines read bit 15 alone:
    two flag sets that agree on that bit, and on whether the enclosing
    block is entered, do the same to V8. *)
Theorem only_bit_15_matters (compiled_in : bool) (block : Z -> bool)
    (flags flags' : Z) (v8 : V8) :
  Z.testbit flags 15 = Z.testbit flags' 15 ->
  block flags = block flags' ->
  PlatformInit compiled_in block flags v8
  = PlatformInit compiled_in block flags' v8.
Proof.
  intros Hbit Hblock. rewrite !PlatformInit_by_bit. now rewrite Hbit, Hblock.
Qed.

End WasmFacts.

(* ===================================================================== *)
(** * Further properties of the accessibility page handlers               *)
(* ===================================================================== *)

Module AccessibilityFacts.
Import Accessibility.

(** X21.  Whatever global strings the page sets, in whatever order, the
    API type among them, the preferences of the profile stay exactly as
    they were, and the tree dumped afterwards is the one of the blink API
    type. *)
Theorem SetGlobalString_calls_leave_profile (p : Page)
    (calls : list (string * string)) (profile : PrefService) :
  foldl (fun pref call => SetGlobalString p call.1 call.2 pref) profile calls
  = profile
  /\ RequestWebContentsTree p
       (foldl (fun pref call => SetGlobalString p call.1 call.2 pref)
          profile calls)
     = DumpAccessibilityTree p kBlink.
Proof.
  assert (Hfold :
            foldl (fun pref call => SetGlobalString p call.1 call.2 pref)
              profile calls = profile).
  { induction calls as [|[string_name value] calls IH]; simpl.
    - reflexivity.
    - unfold SetGlobalString at 2. simpl.
      destruct (bool_decide (string_name = kApiTypeField p)); exact IH. }
  split; [exact Hfold|]. rewrite Hfold. reflexivity.
Qed.

End AccessibilityFacts.

(* ===================================================================== *)
(** * The further properties at concrete inputs                           *)
(* ===================================================================== *)

Module FactInstances.
Import Media MediaExamples MediaClients MediaFacts.

Lemma capture_resolution_ignores_host_witness :
  let request :=
    request_for MEDIA_GENERATE_STREAM GUM_DESKTOP_AUDIO_CAPTURE
      GUM_DESKTOP_VIDEO_CAPTURE "" "" 9 in
  TakeAction (example_host [] [] false) (Create request (Some 1)) []
  = TakeAction (example_host [microphone] [webcam] true)
      (Create request (Some 1)) [].
Proof.
  intros request.
  apply (capture_resolution_ignores_host
           (example_host [] [] false) (example_host [microphone] [webcam] true)
           request 1 []); [reflexivity | reflexivity | reflexivity].
Defined.

Lemma HandleUserMediaRequest_no_hardware_iff_witness :
  let c :=
    Create (request_for MEDIA_GENERATE_STREAM DEVICE_AUDIO_CAPTURE NO_SERVICE
              "" "" 1) (Some 2) in
  HandleUserMediaRequest (example_host [microphone] [] false) c []
  = Returned (moved_from c) [Ran 2 [] NO_HARDWARE].
Proof.
  intros c.
  apply (proj1 (HandleUserMediaRequest_no_hardware_iff
                  (example_host [microphone] [] false) c 2 [] eq_refl)).
  reflexivity.
Defined.

Lemma no_hardware_iff_no_device_witness :
  let h := example_host [] [] false in
  let request :=
    request_for MEDIA_DEVICE_ACCESS DEVICE_AUDIO_CAPTURE NO_SERVICE "" "" 1 in
  exists c' devices,
    TakeAction h (Create request (Some 3)) []
    = Returned c' [Ran 3 devices NO_HARDWARE].
Proof.
  intros h request.
  apply (no_hardware_iff_no_device h request 3 [] 7 eq_refl eq_refl eq_refl).
  split; reflexivity.
Defined.

Lemma delegated_request_is_never_run_witness :
  let h := example_host [] [] true in
  let request :=
    request_for MEDIA_DEVICE_UPDATE DEVICE_AUDIO_CAPTURE NO_SERVICE "" "" 1 in
  lifetime h request (Some 4) [] = Returned tt [MovedToSession 4 request].
Proof.
  intros h request.
  apply (delegated_request_is_never_run h request 4 []). reflexivity.
Defined.

Lemma pepper_grants_at_most_one_known_device_witness :
  let h := example_host [microphone; headset] [webcam] false in
  let request :=
    request_for MEDIA_OPEN_DEVICE_PEPPER_ONLY DEVICE_AUDIO_CAPTURE
      DEVICE_VIDEO_CAPTURE "mic-1" "cam-0" 1 in
  exists devices,
    Accept h (Create request (Some 5)) []
    = Returned (moved_from (Create request (Some 5))) [Ran 5 devices OK]
    /\ length devices <= 1.
Proof.
  intros h request.
  destruct (pepper_grants_at_most_one_known_device h request 5 [] eq_refl)
    as (devices & Haccept & Hlength & _).
  exists devices. split; [exact Haccept | exact Hlength].
Defined.

Lemma pepper_grants_requested_device_witness :
  let h := example_host [microphone; headset] [webcam] false in
  let request :=
    request_for MEDIA_OPEN_DEVICE_PEPPER_ONLY DEVICE_AUDIO_CAPTURE NO_SERVICE
      "mic-1" "" 1 in
  Accept h (Create request (Some 6)) []
  = Returned (moved_from (Create request (Some 6))) [Ran 6 [headset] OK].
Proof.
  intros h request.
  destruct (pepper_grants_requested_device h request 6 [] [microphone] []
              headset eq_refl) as [Haudio _].
  apply Haudio; [reflexivity | reflexivity | | reflexivity].
  repeat constructor; discriminate.
Defined.

Lemma pepper_never_crosses_kinds_witness :
  let h := example_host [] [webcam] false in
  let request :=
    request_for MEDIA_OPEN_DEVICE_PEPPER_ONLY DEVICE_AUDIO_CAPTURE
      DEVICE_VIDEO_CAPTURE "" "cam-0" 1 in
  Accept h (Create request (Some 7)) []
  = Returned (moved_from (Create request (Some 7))) [Ran 7 [] OK].
Proof.
  intros h request.
  apply (pepper_never_crosses_kinds h request 7 [] eq_refl).
  left. split; reflexivity.
Defined.

Lemma generate_stream_grants_named_devices_witness :
  let h := example_host [microphone; headset] [webcam] false in
  let request :=
    request_for MEDIA_GENERATE_STREAM NO_SERVICE DEVICE_VIDEO_CAPTURE
      "mic-1" "cam-0" 1 in
  Accept h (Create request (Some 8)) []
  = Returned (moved_from (Create request (Some 8)))
      [Ran 8 [headset; webcam] OK].
Proof.
  intros h request.
  apply (generate_stream_grants_named_devices h request 8 [] headset webcam);
    [reflexivity | right; reflexivity | discriminate | reflexivity
    | discriminate | reflexivity].
Defined.

Lemma generate_stream_defaults_for_unresolved_kinds_witness :
  let h := example_host [microphone; headset] [webcam] false in
  let request :=
    request_for MEDIA_GENERATE_STREAM DEVICE_AUDIO_CAPTURE DEVICE_VIDEO_CAPTURE
      "mic-1" "" 1 in
  Accept h (Create request (Some 9)) []
  = Returned (moved_from (Create request (Some 9)))
      [Ran 9 (GetDefaultDevices h false true [headset]) OK].
Proof.
  intros h request.
  destruct (generate_stream_defaults_for_unresolved_kinds h request 9 []
              eq_refl eq_refl eq_refl (or_introl eq_refl)) as [_ Hnamed].
  apply Hnamed; [discriminate | reflexivity].
Defined.

Lemma accept_without_requested_kind_witness :
  let h := example_host [microphone] [] false in
  let request :=
    request_for MEDIA_DEVICE_UPDATE NO_SERVICE DISPLAY_VIDEO_CAPTURE "" "" 1 in
  Accept h (Create request (Some 10)) []
  = Returned (moved_from (Create request (Some 10))) [Ran 10 [] OK].
Proof.
  intros h request.
  apply (accept_without_requested_kind h request 10 []); discriminate.
Defined.

Lemma callback_never_consumed_twice_witness :
  let h := example_host [microphone] [webcam] false in
  let request :=
    request_for MEDIA_GENERATE_STREAM DEVICE_AUDIO_CAPTURE NO_SERVICE "" "" 2 in
  let calls := [CallTakeAction; CallDeny PERMISSION_DENIED; CallTakeAction] in
  use h request (Some 11) calls [] = Returned tt [Ran 11 [] PERMISSION_DENIED]
  /\ exists events,
      final_state (use h request (Some 11) calls []) = events
      /\ length events = 1.
Proof.
  intros h request calls. split; [reflexivity|].
  destruct (callback_never_consumed_twice h request 11 calls [])
    as (events & Hfinal & _ & _ & Hone).
  exists events. split; [exact Hfinal|].
  apply (Hone [Ran 11 [] PERMISSION_DENIED]). reflexivity.
Defined.


Lemma LoadEnvironment_keeps_or_replaces_hook_witness :
  let env := Node.set_embedder_preload (Some Node.test_preload)
               Node.CreateEnvironment in
  exists v env',
    Node.LoadEnvironment None None env = Returned v env'
    /\ Node.steps env' =
         [Node.LibuvInitialized; Node.DiagnosticsInitialized;
          Node.EmbedderPreloadCalled 1 Node.process Node.require;
          Node.PreloadModulesLoaded; Node.UserCodeStarted].
Proof.
  intros env.
  exact (proj1 (NodeFacts.LoadEnvironment_keeps_or_replaces_hook None
                  (Node.mkPreload 2 (fun properties => properties))
                  Node.test_preload env eq_refl eq_refl eq_refl)).
Defined.

Lemma setupUserModules_after_user_code_witness :
  let env := Node.mkEnvironment (Some Node.test_preload) ∅ true false [] in
  Node.setupUserModules false env = Fatal env.
Proof.
  intros env.
  apply (NodeFacts.setupUserModules_after_user_code false env).
  left. reflexivity.
Defined.

Lemma preload_effect_visible_to_entry_point_witness :
  exists env',
    Node.LoadEnvironment (Some Node.test_main_script) (Some Node.test_preload)
      Node.CreateEnvironment
    = Returned (Node.test_main_script (Node.preload_body Node.test_preload ∅))
        env'.
Proof.
  destruct (NodeFacts.preload_effect_visible_to_entry_point
              Node.test_main_script Node.test_preload Node.CreateEnvironment
              eq_refl eq_refl) as (env' & Hload & _).
  exists env'. exact Hload.
Defined.

Lemma GetEmbedderOptions_keeps_earlier_options_witness :
  let earlier : gmap string Node.Value :=
    {[ "noBrowserGlobals" := Node.Boolean true ]} in
  let options : gmap string Node.Value :=
    <["hasEmbedderPreload" := Node.Boolean false]> earlier in
  Node.GetEmbedderOptions Node.CreateEnvironment (Some earlier) false
  = Some options
  /\ options !! "noBrowserGlobals" = earlier !! "noBrowserGlobals".
Proof.
  intros earlier options.
  assert (Hoptions :
            Node.GetEmbedderOptions Node.CreateEnvironment (Some earlier) false
            = Some options) by reflexivity.
  split; [exact Hoptions|].
  apply (proj2 (NodeFacts.GetEmbedderOptions_keeps_earlier_options
                  Node.CreateEnvironment (Some earlier) false)
           earlier options "noBrowserGlobals" eq_refl Hoptions).
  discriminate.
Defined.

Lemma PlatformInit_twice_witness :
  (Wasm.PlatformInit true (fun _ => true) 0
   ≫= fun _ => Wasm.PlatformInit true (fun _ => true) 0) (Wasm.mkV8 [])
  = Fatal (Wasm.mkV8 [false]).
Proof.
  exact (WasmFacts.PlatformInit_twice (fun _ => true) 0%Z 0%Z eq_refl eq_refl).
Defined.

Lemma only_bit_15_matters_witness :
  Wasm.PlatformInit true (fun _ => true) Wasm.kNoInitializeCppgc (Wasm.mkV8 [])
  = Wasm.PlatformInit true (fun _ => true) 0 (Wasm.mkV8 []).
Proof.
  apply (WasmFacts.only_bit_15_matters true (fun _ => true)
           Wasm.kNoInitializeCppgc 0%Z (Wasm.mkV8 [])); reflexivity.
Defined.

End FactInstances.
